(** * Sensor data fusion engine (backend/utils/sensor_fusion.py)

    A shallow embedding of [SensorReading], [SensorDataFusion] and
    [RealTimeFusion], and the properties of the fusion specification that
    are settled on it.

    Conventions of the embedding.
    - Python floats are idealised as real numbers ([R]): rounding is not
      modelled.  The places where IEEE arithmetic leaves the reals are
      written out: [ZeroDivisionError] of Python's [/] is an explicit
      error result, and the [nan] that [scipy.stats.zscore] produces for a
      constant sample is [None].
    - A Python [dict] is an insertion-ordered association list with
      distinct keys ([Dict.t]); the order is the iteration order of
      [.items()].
    - [datetime] values are integers (microseconds); [datetime.now()] is an
      explicit argument [now].
    - Code that can raise returns a [result].
    - The pandas-based operations ([interpolate_missing_data],
      [temporal_fusion]) and [get_buffer_status] are not embedded; no
      statement below is about them.
    - [Binary64] repeats the two numeric runs of the specification
      (anomaly detection and the recursive estimator) on IEEE binary64
      floats, to check that the idealisation does not change them.      *)

From Stdlib Require Import Floats String ZArith Reals Lra Lia Bool Arith List.
From Stdlib Require Import Permutation Psatz.
Import ListNotations.
Open Scope string_scope.
Open Scope list_scope.
Open Scope R_scope.

Set Implicit Arguments.

(** ** Exceptions and fallible computations

    [InvalidReading] is the error the specification names for ingestion;
    no code path of the source raises it. *)

Inductive exn : Type :=
| ZeroDivisionError
| InvalidReading
| FittingError (msg : string)
| MemoryError.

Inductive result (A : Type) : Type :=
| Ok (a : A)
| Raise (e : exn).

Arguments Ok {A} a.
Arguments Raise {A} e.

Definition bind {A B : Type} (m : result A) (k : A -> result B) : result B :=
  match m with
  | Ok a => k a
  | Raise e => Raise e
  end.

Notation "x <- m ;; k" := (bind m (fun x => k))
  (at level 61, m at next level, right associativity).

(** Python's float division: raises on a zero divisor. *)
Definition py_div (x y : R) : result R :=
  if Req_dec_T y 0 then Raise ZeroDivisionError else Ok (x / y).

(** ** Dictionaries *)

Module Dict.

Definition t (V : Type) : Type := list (string * V).

Definition empty {V : Type} : t V := [].

Fixpoint get {V : Type} (k : string) (d : t V) : option V :=
  match d with
  | [] => None
  | (k', v) :: d' => if String.eqb k k' then Some v else get k d'
  end.

Definition mem {V : Type} (k : string) (d : t V) : bool :=
  match get k d with Some _ => true | None => false end.

(** [d[k] = v]: an existing key keeps its position, a new one goes last. *)
Fixpoint set {V : Type} (k : string) (v : V) (d : t V) : t V :=
  match d with
  | [] => [(k, v)]
  | (k', v') :: d' =>
      if String.eqb k k' then (k, v) :: d' else (k', v') :: set k v d'
  end.

(** [d.get(k, default)] *)
Definition get_default {V : Type} (k : string) (default : V) (d : t V) : V :=
  match get k d with Some v => v | None => default end.

Definition keys {V : Type} (d : t V) : list string := map fst d.

End Dict.

(** ** The reading model *)

Inductive pyval : Type :=
| PyNone
| PyBool (b : bool)
| PyNum (x : R)
| PyStr (s : string).

(** [timestamp] in microseconds; the field [unit] of the source is
    [unit_] here ([unit] is a type of the prelude). *)
Record SensorReading : Type := mkReading {
  sensor_id : string;
  sensor_type : string;
  value : R;
  unit_ : string;
  timestamp : Z;
  location : option (R * R);
  quality_score : R;
  metadata : Dict.t pyval
}.

Record SensorDataFusion : Type := mkFusion {
  field_id : Z;
  sensor_readings : list SensorReading;
  fusion_weights : Dict.t R;
  calibration_factors : Dict.t (Dict.t R)
}.

(** [SensorDataFusion.__init__] *)
Definition SensorDataFusion_init (fid : Z) : SensorDataFusion :=
  {| field_id := fid;
     sensor_readings := [];
     fusion_weights := Dict.empty;
     calibration_factors := Dict.empty |}.

(** [add_reading]: appends, whatever the reading holds. *)
Definition add_reading (self : SensorDataFusion) (reading : SensorReading)
  : result SensorDataFusion :=
  Ok {| field_id := field_id self;
        sensor_readings := sensor_readings self ++ [reading];
        fusion_weights := fusion_weights self;
        calibration_factors := calibration_factors self |}.

Definition add_readings (self : SensorDataFusion) (readings : list SensorReading)
  : SensorDataFusion :=
  {| field_id := field_id self;
     sensor_readings := sensor_readings self ++ readings;
     fusion_weights := fusion_weights self;
     calibration_factors := calibration_factors self |}.

Definition set_fusion_weights (self : SensorDataFusion) (weights : Dict.t R)
  : SensorDataFusion :=
  {| field_id := field_id self;
     sensor_readings := sensor_readings self;
     fusion_weights := weights;
     calibration_factors := calibration_factors self |}.

Definition set_calibration_factors (self : SensorDataFusion)
  (factors : Dict.t (Dict.t R)) : SensorDataFusion :=
  {| field_id := field_id self;
     sensor_readings := sensor_readings self;
     fusion_weights := fusion_weights self;
     calibration_factors := factors |}.

(** ** Grouping by sensor type

    The loop every operation starts with:
    [if t not in groups: groups[t] = []] then [groups[t].append(reading)]. *)

Definition group_add (groups : Dict.t (list SensorReading)) (reading : SensorReading)
  : Dict.t (list SensorReading) :=
  match Dict.get (sensor_type reading) groups with
  | None => Dict.set (sensor_type reading) [reading] groups
  | Some l => Dict.set (sensor_type reading) (l ++ [reading]) groups
  end.

Definition group_by_type (readings : list SensorReading)
  : Dict.t (list SensorReading) :=
  fold_left group_add readings Dict.empty.

(** ** numpy and scipy on lists of numbers *)

(** Python's [sum]: a left fold from 0. *)
Definition py_sum (l : list R) : R := fold_left Rplus l 0.

(** [np.mean]; only ever called on a non-empty list. *)
Definition np_mean (l : list R) : R := py_sum l / INR (length l).

(** [np.std] (population standard deviation, [ddof = 0]). *)
Definition np_std (l : list R) : R :=
  let m := np_mean l in
  sqrt (np_mean (map (fun x => (x - m) * (x - m)) l)).

(** [np.min], [np.max]; only ever called on a non-empty list. *)
Definition np_min (l : list R) : R :=
  match l with [] => 0 | x :: xs => fold_left Rmin xs x end.

Definition np_max (l : list R) : R :=
  match l with [] => 0 | x :: xs => fold_left Rmax xs x end.

Fixpoint insert_sorted (x : R) (l : list R) : list R :=
  match l with
  | [] => [x]
  | y :: l' => if Rle_dec x y then x :: l else y :: insert_sorted x l'
  end.

Definition sort_values (l : list R) : list R := fold_right insert_sorted [] l.

(** [np.median]: the middle of the sorted values, or the mean of the two
    middle ones. *)
Definition np_median (l : list R) : R :=
  let s := sort_values l in
  let n := length s in
  if Nat.even n
  then (nth (n / 2 - 1) s 0 + nth (n / 2) s 0) / 2
  else nth (n / 2) s 0.

(** [scipy.stats.zscore]: [(x - mean) / std]; on a sample of zero deviation
    every entry is 0/0, a [nan], written [None]. *)
Definition zscore (values : list R) : list (option R) :=
  let m := np_mean values in
  let s := np_std values in
  if Req_dec_T s 0
  then map (fun _ => None) values
  else map (fun x => Some ((x - m) / s)) values.

(** [np.abs] on such an array. *)
Definition np_abs (zs : list (option R)) : list (option R) :=
  map (option_map Rabs) zs.

(** [z < threshold] on a numpy float: false on [nan]. *)
Definition nan_lt (z : option R) (threshold : R) : bool :=
  match z with
  | Some x => if Rlt_dec x threshold then true else false
  | None => false
  end.

(** ** Cleaning *)

Definition quality_ok (r : SensorReading) : bool :=
  if Rge_dec (quality_score r) 0.5 then true else false.

Definition clean_group (remove_outliers : bool) (z_threshold : R)
  (readings : list SensorReading) : list SensorReading :=
  match readings with
  | [] => []
  | _ =>
      let quality_filtered := filter quality_ok readings in
      if remove_outliers && (3 <? length quality_filtered)%nat
      then
        let values := map value quality_filtered in
        let z_scores := np_abs (zscore values) in
        map fst
          (filter (fun rz => nan_lt (snd rz) z_threshold)
             (combine quality_filtered z_scores))
      else quality_filtered
  end.

(** [clean_data]; the log line is not modelled. *)
Definition clean_data (self : SensorDataFusion) (remove_outliers : bool)
  (z_threshold : R) : list SensorReading :=
  flat_map (fun g => clean_group remove_outliers z_threshold (snd g))
    (group_by_type (sensor_readings self)).

(** ** Calibration *)

(** The reading built by [SensorReading(..., value=slope*value+offset, ...,
    metadata={**reading.metadata, 'calibrated': True})]. *)
Definition calibrated (factors : Dict.t R) (reading : SensorReading)
  : SensorReading :=
  let slope := Dict.get_default "slope" 1 factors in
  let offset := Dict.get_default "offset" 0 factors in
  let calibrated_value := slope * value reading + offset in
  {| sensor_id := sensor_id reading;
     sensor_type := sensor_type reading;
     value := calibrated_value;
     unit_ := unit_ reading;
     timestamp := timestamp reading;
     location := location reading;
     quality_score := quality_score reading;
     metadata := Dict.set "calibrated" (PyBool true) (metadata reading) |}.

(** One turn of the loop of [apply_calibration]. *)
Definition calibrate_reading (self : SensorDataFusion) (reading : SensorReading)
  : SensorReading :=
  match Dict.get (sensor_type reading) (calibration_factors self) with
  | Some factors => calibrated factors reading
  | None => reading
  end.

(** [apply_calibration] on the readings as values. *)
Definition apply_calibration (self : SensorDataFusion)
  (readings : list SensorReading) : list SensorReading :=
  map (calibrate_reading self) readings.

(** *** The same loop on objects

    Readings are objects of a store; a list of readings is a list of
    addresses.  [apply_calibration] reads the input objects, allocates one
    object per calibrated reading and puts the input address itself in the
    output when the type has no factors ([calibrated_reading = reading]).
    The metadata of a reading is part of the object: the source builds the
    new dictionary with [{**reading.metadata, ...}] and writes into no
    existing one. *)

Definition ref : Type := nat.
Definition heap : Type := list SensorReading.

Definition deref (h : heap) (a : ref) : option SensorReading := nth_error h a.

Definition alloc (h : heap) (o : SensorReading) : heap * ref :=
  (h ++ [o], length h).

(** [None]: an address outside the store (no Python run gets there). *)
Fixpoint apply_calibration_heap (self : SensorDataFusion) (h : heap)
  (readings : list ref) : option (heap * list ref) :=
  match readings with
  | [] => Some (h, [])
  | a :: rest =>
      match deref h a with
      | None => None
      | Some reading =>
          match Dict.get (sensor_type reading) (calibration_factors self) with
          | Some factors =>
              let (h1, a') := alloc h (calibrated factors reading) in
              match apply_calibration_heap self h1 rest with
              | Some (h2, out) => Some (h2, a' :: out)
              | None => None
              end
          | None =>
              match apply_calibration_heap self h rest with
              | Some (h2, out) => Some (h2, a :: out)
              | None => None
              end
          end
      end
  end.

(** ** Multi-sensor fusion *)

Definition weighted_average (type_readings : list SensorReading) : R :=
  let numerator :=
    py_sum (map (fun r => value r * quality_score r) type_readings) in
  let denominator := py_sum (map quality_score type_readings) in
  if Rgt_dec denominator 0
  then numerator / denominator
  else np_mean (map value type_readings).

(** One turn of the loop of [_kalman_filter_fusion] on the state
    [(estimate, estimate_error)]. *)
Definition kalman_step (st : R * R) (reading : SensorReading) : result (R * R) :=
  let (estimate, estimate_error) := st in
  let predicted_estimate := estimate in
  let predicted_error := estimate_error + 0.1 in
  measurement_noise <- py_div 1 (quality_score reading) ;;
  kalman_gain <- py_div predicted_error (predicted_error + measurement_noise) ;;
  Ok (predicted_estimate + kalman_gain * (value reading - predicted_estimate),
      (1 - kalman_gain) * predicted_error).

Fixpoint kalman_loop (st : R * R) (readings : list SensorReading)
  : result (R * R) :=
  match readings with
  | [] => Ok st
  | reading :: rest => st' <- kalman_step st reading ;; kalman_loop st' rest
  end.

(** The states the loop goes through, one per update. *)
Fixpoint kalman_trace (st : R * R) (readings : list SensorReading)
  : result (list (R * R)) :=
  match readings with
  | [] => Ok []
  | reading :: rest =>
      st' <- kalman_step st reading ;;
      tr <- kalman_trace st' rest ;;
      Ok (st' :: tr)
  end.

Definition _kalman_filter_fusion (readings : list SensorReading) : result R :=
  match readings with
  | [] => Ok 0
  | first :: rest =>
      st <- kalman_loop (value first, 1) rest ;;
      Ok (fst st)
  end.

Definition fuse_type (fusion_method : string) (type_readings : list SensorReading)
  : result R :=
  if String.eqb fusion_method "weighted_average"
  then Ok (weighted_average type_readings)
  else if String.eqb fusion_method "kalman_filter"
  then _kalman_filter_fusion type_readings
  else if String.eqb fusion_method "median"
  then Ok (np_median (map value type_readings))
  else Ok (np_mean (map value type_readings)).

Fixpoint fuse_groups (fusion_method : string)
  (groups : Dict.t (list SensorReading)) (fused_values : Dict.t R)
  : result (Dict.t R) :=
  match groups with
  | [] => Ok fused_values
  | (sensor_type, type_readings) :: rest =>
      v <- fuse_type fusion_method type_readings ;;
      fuse_groups fusion_method rest (Dict.set sensor_type v fused_values)
  end.

Definition multi_sensor_fusion (readings : list SensorReading)
  (fusion_method : string) : result (Dict.t R) :=
  match readings with
  | [] => Ok Dict.empty
  | _ => fuse_groups fusion_method (group_by_type readings) Dict.empty
  end.

(** ** Anomaly detection *)

Definition is_anomalous (threshold_factor mean_val std_val : R)
  (reading : SensorReading) : bool :=
  if Rgt_dec (Rabs (value reading - mean_val)) (threshold_factor * std_val)
  then true else false.

Definition group_anomalies (threshold_factor : R)
  (type_readings : list SensorReading) : list SensorReading :=
  if (length type_readings <? 5)%nat then []
  else
    let values := map value type_readings in
    let mean_val := np_mean values in
    let std_val := np_std values in
    filter (is_anomalous threshold_factor mean_val std_val) type_readings.

Definition detect_sensor_anomalies (readings : list SensorReading)
  (threshold_factor : R) : list SensorReading :=
  flat_map (fun g => group_anomalies threshold_factor (snd g))
    (group_by_type readings).

(** ** Spatial fusion *)

Definition grid : Type := list (list R).

Record SpatialGrid : Type := mkSpatialGrid {
  grid_lat : grid;
  grid_lon : grid;
  grid_values : grid;
  original_points : nat
}.

(** numpy allocates its arrays: [can_allocate n] says whether an array of
    [n] floats can be had.  When it cannot, numpy raises ([MemoryError], or
    [ValueError: Maximum allowed size exceeded] for a length past the index
    range; both are [MemoryError] here).

    [np.arange(start, stop, step)]: [ceil((stop - start) / step)] points
    [start + i * step]; the length cannot be computed for a zero step, and
    numpy raises. *)
Definition np_arange (can_allocate : nat -> bool) (start stop step : R)
  : result (list R) :=
  if Req_dec_T step 0 then Raise ZeroDivisionError
  else
    let n := Z.to_nat (Zceil ((stop - start) / step)) in
    if can_allocate n
    then Ok (map (fun i => start + INR i * step) (seq 0 n))
    else Raise MemoryError.

(** [np.meshgrid(xs, ys)]: two arrays of [len(ys)] rows and [len(xs)]
    columns. *)
Definition np_meshgrid (can_allocate : nat -> bool) (xs ys : list R)
  : result (grid * grid) :=
  if can_allocate (length xs * length ys)%nat
  then Ok (map (fun _ => xs) ys, map (fun y => map (fun _ => y) xs) ys)
  else Raise MemoryError.

(** The grouping loop of [fuse_spatial_data]: readings without a location
    are passed over. *)
Definition group_add_located (groups : Dict.t (list SensorReading))
  (reading : SensorReading) : Dict.t (list SensorReading) :=
  match location reading with
  | None => groups
  | Some _ => group_add groups reading
  end.

Definition group_located (readings : list SensorReading)
  : Dict.t (list SensorReading) :=
  fold_left group_add_located readings Dict.empty.

(** [r.location[0]], [r.location[1]] of a located reading. *)
Definition lat_of (r : SensorReading) : R :=
  match location r with Some p => fst p | None => 0 end.

Definition lon_of (r : SensorReading) : R :=
  match location r with Some p => snd p | None => 0 end.

Section SpatialFusion.

Variable can_allocate : nat -> bool.

(** [scipy.interpolate.Rbf]: the fitted interpolant is an abstract
    object; building it ([Rbf lats lons values weights]) and calling it on
    a grid ([Rbf_call]) can raise. *)
Variable rbf : Type.
Variable Rbf : list R -> list R -> list R -> list R -> result rbf.
Variable Rbf_call : rbf -> grid -> grid -> result grid.

(** The grid of one group: the statements between the extraction of the
    coordinates and the [try] block. *)
Definition build_grid (grid_size : R) (type_readings : list SensorReading)
  : result (grid * grid) :=
  let lats := map lat_of type_readings in
  let lons := map lon_of type_readings in
  let lat_min := np_min lats in
  let lat_max := np_max lats in
  let lon_min := np_min lons in
  let lon_max := np_max lons in
  grid_lats <- np_arange can_allocate lat_min lat_max (grid_size / 111000) ;;
  grid_lons <- np_arange can_allocate lon_min lon_max (grid_size / 111000) ;;
  np_meshgrid can_allocate grid_lats grid_lons.

(** The body of the loop over the groups, for one group: [Ok None] when
    the group is passed over ([continue]), [Raise] when an exception
    leaves the function. *)
Definition fuse_spatial_group (grid_size : R)
  (type_readings : list SensorReading) : result (option SpatialGrid) :=
  if (length type_readings <? 3)%nat then Ok None
  else
    let lats := map lat_of type_readings in
    let lons := map lon_of type_readings in
    let values := map value type_readings in
    let weights := map quality_score type_readings in
    g <- build_grid grid_size type_readings ;;
    let (glat, glon) := g in
    (* try: ... except Exception: continue *)
    match (f <- Rbf lats lons values weights ;; Rbf_call f glat glon) with
    | Ok vals =>
        Ok (Some {| grid_lat := glat;
                    grid_lon := glon;
                    grid_values := vals;
                    original_points := length type_readings |})
    | Raise _ => Ok None
    end.

Fixpoint fuse_spatial_groups (grid_size : R)
  (groups : Dict.t (list SensorReading)) (fused_grids : Dict.t SpatialGrid)
  : result (Dict.t SpatialGrid) :=
  match groups with
  | [] => Ok fused_grids
  | (sensor_type, type_readings) :: rest =>
      entry <- fuse_spatial_group grid_size type_readings ;;
      match entry with
      | Some g =>
          fuse_spatial_groups grid_size rest (Dict.set sensor_type g fused_grids)
      | None => fuse_spatial_groups grid_size rest fused_grids
      end
  end.

Definition fuse_spatial_data (readings : list SensorReading) (grid_size : R)
  : result (Dict.t SpatialGrid) :=
  match readings with
  | [] => Ok Dict.empty
  | _ => fuse_spatial_groups grid_size (group_located readings) Dict.empty
  end.

End SpatialFusion.

(** ** Fusion report *)

Record TypeStatistics : Type := mkTypeStatistics {
  stat_count : nat;
  stat_mean : R;
  stat_std : R;
  stat_min : R;
  stat_max : R;
  stat_unit : option string
}.

Record QualitySummary : Type := mkQualitySummary {
  avg_quality : R;
  min_quality : R;
  high_quality_percentage : R
}.

Record TemporalCoverage : Type := mkTemporalCoverage {
  start_time : Z;
  end_time : Z;
  duration_hours : R;
  reading_frequency_minutes : R
}.

Record AnomalyEntry : Type := mkAnomalyEntry {
  anomaly_sensor_id : string;
  anomaly_sensor_type : string;
  anomaly_value : R;
  anomaly_timestamp : Z
}.

Record FusionReport : Type := mkFusionReport {
  report_timestamp : Z;
  report_field_id : Z;
  total_readings : nat;
  sensor_types : Dict.t TypeStatistics;
  quality_summary : Dict.t QualitySummary;
  temporal_coverage : Dict.t TemporalCoverage;
  spatial_coverage : Dict.t pyval;
  anomalies : list AnomalyEntry;
  fusion_summary : Dict.t R
}.

(** [max], [min] of a non-empty list of timestamps. *)
Definition max_time (l : list Z) : Z :=
  match l with [] => 0%Z | x :: xs => fold_left Z.max xs x end.

Definition min_time (l : list Z) : Z :=
  match l with [] => 0%Z | x :: xs => fold_left Z.min xs x end.

(** [timedelta.total_seconds()] of a span in microseconds. *)
Definition total_seconds (span : Z) : R := IZR span / 1000000.

Definition type_statistics (type_readings : list SensorReading) : TypeStatistics :=
  let values := map value type_readings in
  {| stat_count := length type_readings;
     stat_mean := np_mean values;
     stat_std := np_std values;
     stat_min := np_min values;
     stat_max := np_max values;
     stat_unit := option_map unit_ (hd_error type_readings) |}.

Definition type_quality (type_readings : list SensorReading) : QualitySummary :=
  let count := length type_readings in
  let quality_scores := map quality_score type_readings in
  {| avg_quality := np_mean quality_scores;
     min_quality := np_min quality_scores;
     high_quality_percentage :=
       INR (length (filter (fun q => if Rge_dec q 0.8 then true else false)
                      quality_scores))
       / INR count * 100 |}.

Definition type_coverage (type_readings : list SensorReading) : TemporalCoverage :=
  let count := length type_readings in
  let timestamps := map timestamp type_readings in
  let time_span := (max_time timestamps - min_time timestamps)%Z in
  {| start_time := min_time timestamps;
     end_time := max_time timestamps;
     duration_hours := total_seconds time_span / 3600;
     reading_frequency_minutes :=
       if (1 <? count)%nat then total_seconds time_span / 60 / INR count else 0 |}.

Definition anomaly_entry (a : SensorReading) : AnomalyEntry :=
  {| anomaly_sensor_id := sensor_id a;
     anomaly_sensor_type := sensor_type a;
     anomaly_value := value a;
     anomaly_timestamp := timestamp a |}.

(** [report[section][sensor_type] = f(type_readings)] over the groups (a
    group is never empty, so the guard [if timestamps] always holds). *)
Definition per_type {A : Type} (f : list SensorReading -> A)
  (groups : Dict.t (list SensorReading)) : Dict.t A :=
  fold_left (fun d g => Dict.set (fst g) (f (snd g)) d) groups Dict.empty.

Definition generate_fusion_report (self : SensorDataFusion) (now : Z)
  (readings : list SensorReading) : result FusionReport :=
  match readings with
  | [] =>
      Ok {| report_timestamp := now;
            report_field_id := field_id self;
            total_readings := length readings;
            sensor_types := Dict.empty;
            quality_summary := Dict.empty;
            temporal_coverage := Dict.empty;
            spatial_coverage := Dict.empty;
            anomalies := [];
            fusion_summary := Dict.empty |}
  | _ =>
      let sensor_groups := group_by_type readings in
      let found := detect_sensor_anomalies readings 2 in
      fused_values <- multi_sensor_fusion readings "weighted_average" ;;
      Ok {| report_timestamp := now;
            report_field_id := field_id self;
            total_readings := length readings;
            sensor_types := per_type type_statistics sensor_groups;
            quality_summary := per_type type_quality sensor_groups;
            temporal_coverage := per_type type_coverage sensor_groups;
            spatial_coverage := Dict.empty;
            anomalies := map anomaly_entry found;
            fusion_summary := fused_values |}
  end.

(** ** Streaming fusion *)

Record RealTimeFusion : Type := mkRealTime {
  rt_field_id : Z;
  buffer_size : Z;
  reading_buffer : Dict.t (list SensorReading);
  fusion_engine : SensorDataFusion
}.

(** [RealTimeFusion.__init__] *)
Definition RealTimeFusion_init (fid : Z) (size : Z) : RealTimeFusion :=
  {| rt_field_id := fid;
     buffer_size := size;
     reading_buffer := Dict.empty;
     fusion_engine := SensorDataFusion_init fid |}.

(** [timedelta(hours=1)] in microseconds. *)
Definition time_window : Z := 3600000000%Z.

(** The buffer update: create the list if absent, [append], then [pop(0)]
    when the list is longer than [buffer_size]. *)
Definition buffer_push (size : Z) (buffer : Dict.t (list SensorReading))
  (reading : SensorReading) : Dict.t (list SensorReading) :=
  let appended := Dict.get_default (sensor_type reading) [] buffer ++ [reading] in
  if (size <? Z.of_nat (length appended))%Z
  then Dict.set (sensor_type reading) (tl appended) buffer
  else Dict.set (sensor_type reading) appended buffer.

Definition is_recent (now : Z) (r : SensorReading) : bool :=
  (now - timestamp r <=? time_window)%Z.

Definition add_streaming_reading (self : RealTimeFusion) (now : Z)
  (reading : SensorReading) : result (RealTimeFusion * Dict.t R) :=
  let buffer := buffer_push (buffer_size self) (reading_buffer self) reading in
  let self' := {| rt_field_id := rt_field_id self;
                  buffer_size := buffer_size self;
                  reading_buffer := buffer;
                  fusion_engine := fusion_engine self |} in
  let recent_readings := flat_map (fun b => filter (is_recent now) (snd b)) buffer in
  match recent_readings with
  | [] => Ok (self', Dict.empty)
  | _ =>
      fused <- multi_sensor_fusion recent_readings "weighted_average" ;;
      Ok (self', fused)
  end.

(** [stream]: a sequence of calls [(now, reading)] to
    [add_streaming_reading], threading the object's state. *)
Fixpoint stream (self : RealTimeFusion) (calls : list (Z * SensorReading))
  : result RealTimeFusion :=
  match calls with
  | [] => Ok self
  | (now, reading) :: rest =>
      p <- add_streaming_reading self now reading ;;
      stream (fst p) rest
  end.

(** *** Buffer status *)

Record BufferStatus : Type := mkBufferStatus {
  status_buffer_size : nat;
  latest_timestamp : Z;
  latest_value : R;
  status_avg_quality : R
}.

(** [max(readings, key=lambda x: x.timestamp)], from a first candidate: a
    later reading replaces the candidate only when its timestamp is
    strictly larger. *)
Fixpoint latest_from (best : SensorReading) (readings : list SensorReading)
  : SensorReading :=
  match readings with
  | [] => best
  | r :: rest =>
      if (timestamp best <? timestamp r)%Z
      then latest_from r rest
      else latest_from best rest
  end.

(** The entry of one buffer; none for an empty buffer ([if readings:]). *)
Definition buffer_status (readings : list SensorReading) : option BufferStatus :=
  match readings with
  | [] => None
  | first :: rest =>
      let latest_reading := latest_from first rest in
      Some {| status_buffer_size := length readings;
              latest_timestamp := timestamp latest_reading;
              latest_value := value latest_reading;
              status_avg_quality := np_mean (map quality_score readings) |}
  end.

Definition get_buffer_status (self : RealTimeFusion) : Dict.t BufferStatus :=
  fold_left
    (fun status b =>
       match buffer_status (snd b) with
       | Some s => Dict.set (fst b) s status
       | None => status
       end)
    (reading_buffer self) Dict.empty.

(** ** The numeric runs on binary64

    The computations of [detect_sensor_anomalies] and
    [_kalman_filter_fusion] on the values alone, with the float operations
    of Python ([float] is binary64 with a single [nan]). *)

Module Binary64.

Definition f_sum (l : list float) : float := fold_left PrimFloat.add l 0%float.

Definition f_len (l : list float) : float :=
  PrimFloat.of_uint63 (Uint63.of_Z (Z.of_nat (length l))).

Definition f_mean (l : list float) : float := PrimFloat.div (f_sum l) (f_len l).

Definition f_std (l : list float) : float :=
  let m := f_mean l in
  PrimFloat.sqrt
    (f_mean (map (fun x => PrimFloat.mul (PrimFloat.sub x m) (PrimFloat.sub x m)) l)).

(** The values flagged in a group: [abs(value - mean) > factor * std]. *)
Definition f_group_anomalies (threshold_factor : float) (values : list float)
  : list float :=
  if (length values <? 5)%nat then []
  else
    let mean_val := f_mean values in
    let std_val := f_std values in
    filter (fun x => PrimFloat.ltb (PrimFloat.mul threshold_factor std_val)
                       (PrimFloat.abs (PrimFloat.sub x mean_val)))
      values.

(** One update of the estimator on a reading [(value, quality_score)] of
    non-zero quality. *)
Definition f_kalman_step (st : float * float) (reading : float * float)
  : float * float :=
  let (estimate, estimate_error) := st in
  (* 0.1, as binary64 reads it *)
  let predicted_error := PrimFloat.add estimate_error 0x1.999999999999ap-4%float in
  let measurement_noise := PrimFloat.div 1%float (snd reading) in
  let kalman_gain :=
    PrimFloat.div predicted_error (PrimFloat.add predicted_error measurement_noise) in
  (PrimFloat.add estimate
     (PrimFloat.mul kalman_gain (PrimFloat.sub (fst reading) estimate)),
   PrimFloat.mul (PrimFloat.sub 1%float kalman_gain) predicted_error).

Fixpoint f_kalman_trace (st : float * float) (readings : list (float * float))
  : list (float * float) :=
  match readings with
  | [] => []
  | reading :: rest =>
      let st' := f_kalman_step st reading in
      st' :: f_kalman_trace st' rest
  end.

End Binary64.

(** ** Vocabulary of the statements *)

Definition has_type (t : string) (r : SensorReading) : bool :=
  String.eqb (sensor_type r) t.

Definition is_located (r : SensorReading) : bool :=
  match location r with Some _ => true | None => false end.

(** The last [n] elements of a list, in order. *)
Definition lastn {A : Type} (n : nat) (l : list A) : list A :=
  skipn (length l - n) l.


(** ** Sample inputs *)

Definition sample_reading (t : string) (v q : R) : SensorReading :=
  {| sensor_id := "probe-1";
     sensor_type := t;
     value := v;
     unit_ := "%";
     timestamp := 0%Z;
     location := None;
     quality_score := q;
     metadata := Dict.empty |}.

Definition located_reading (t : string) (lat lon v : R) : SensorReading :=
  {| sensor_id := "probe-2";
     sensor_type := t;
     value := v;
     unit_ := "C";
     timestamp := 0%Z;
     location := Some (lat, lon);
     quality_score := 1;
     metadata := Dict.empty |}.

(** The sample of the specification for anomaly detection. *)
Definition anomaly_sample : list SensorReading :=
  map (fun v => sample_reading "soil_moisture" v 1) [10; 10; 10; 10; 60].

(** A reading whose quality score is not in [0, 1]. *)
Definition out_of_range_reading : SensorReading :=
  sample_reading "temperature" 25 2.

Definition low_quality_reading : SensorReading :=
  sample_reading "humidity" 40 0.3.

Definition cleaning_engine : SensorDataFusion :=
  add_readings (SensorDataFusion_init 1)
    [sample_reading "humidity" 41 0.9; low_quality_reading].

(** An engine with the neutral factors registered for one type. *)
Definition neutral_engine : SensorDataFusion :=
  set_calibration_factors (SensorDataFusion_init 1)
    [("humidity", [("slope", 1); ("offset", 0)])].

(** An engine with a proper linear correction for one type. *)
Definition linear_engine : SensorDataFusion :=
  set_calibration_factors (SensorDataFusion_init 1)
    [("humidity", [("slope", 2); ("offset", 3)])].

Definition three_tens : list SensorReading :=
  map (fun _ : nat => sample_reading "temperature" 10 1) [1%nat; 2%nat; 3%nat].

(** Three calls on a streaming service of capacity 2. *)
Definition stream_calls : list (Z * SensorReading) :=
  [(0%Z, sample_reading "humidity" 1 1);
   (1%Z, sample_reading "humidity" 2 1);
   (2%Z, sample_reading "humidity" 3 1)].

(** An interpolant that cannot be fitted. *)
Definition failing_Rbf (lats lons values weights : list R) : result unit :=
  Raise (FittingError "singular matrix").

Definition constant_Rbf_call (f : unit) (glat glon : grid) : result grid :=
  Ok (map (map (fun _ => 0)) glat).

Definition spatial_sample : list SensorReading :=
  [located_reading "temperature" 0 0 20;
   located_reading "temperature" 1 0 21;
   located_reading "temperature" 0 1 22;
   located_reading "humidity" 0 0 50].

(** An engine that stores four good readings of one value. *)
Definition constant_engine : SensorDataFusion :=
  add_readings (SensorDataFusion_init 1)
    (map (fun _ : nat => sample_reading "humidity" 40 1)
       [1%nat; 2%nat; 3%nat; 4%nat]).

(** A group whose second reading has quality score 0. *)
Definition zero_quality_sample : list SensorReading :=
  [sample_reading "temperature" 20 1; sample_reading "temperature" 21 0].

Definition median_sample : list SensorReading :=
  map (fun v => sample_reading "temperature" v 1) [1; 2; 3; 100].

(** [numpy] with room for every array. *)
Definition roomy (n : nat) : bool := true.



(** * Properties *)

(** ** Dictionaries *)

Module DictFacts.

Lemma get_set_same {V : Type} (k : string) (v : V) (d : Dict.t V) :
  Dict.get k (Dict.set k v d) = Some v.
Proof.
  induction d as [|[k' v'] d IH]; simpl.
  - now rewrite String.eqb_refl.
  - destruct (String.eqb k k') eqn:E; simpl; rewrite ?String.eqb_refl, ?E; auto.
Qed.

Lemma get_set_other {V : Type} (k k' : string) (v : V) (d : Dict.t V) :
  k <> k' -> Dict.get k' (Dict.set k v d) = Dict.get k' d.
Proof.
  intros Hne. induction d as [|[k0 v0] d IH]; simpl.
  - destruct (String.eqb k' k) eqn:E; auto.
    apply String.eqb_eq in E. congruence.
  - destruct (String.eqb k k0) eqn:E; simpl.
    + apply String.eqb_eq in E. subst k0.
      destruct (String.eqb k' k) eqn:E'; auto.
      apply String.eqb_eq in E'. congruence.
    + now rewrite IH.
Qed.

Lemma get_none_not_in {V : Type} (k : string) (d : Dict.t V) :
  Dict.get k d = None <-> ~ In k (Dict.keys d).
Proof.
  induction d as [|[k' v'] d IH]; simpl.
  - tauto.
  - destruct (String.eqb k k') eqn:E.
    + apply String.eqb_eq in E. subst. split; [discriminate | tauto].
    + apply String.eqb_neq in E. rewrite IH. split.
      * intros H [H'|H']; [congruence | tauto].
      * tauto.
Qed.

Lemma keys_set {V : Type} (k : string) (v : V) (d : Dict.t V) :
  Dict.keys (Dict.set k v d) =
  if Dict.mem k d then Dict.keys d else Dict.keys d ++ [k].
Proof.
  unfold Dict.mem. induction d as [|[k' v'] d IH]; simpl; auto.
  destruct (String.eqb k k') eqn:E; simpl.
  - apply String.eqb_eq in E. now subst.
  - rewrite IH. now destruct (Dict.get k d).
Qed.

Lemma NoDup_keys_set {V : Type} (k : string) (v : V) (d : Dict.t V) :
  NoDup (Dict.keys d) -> NoDup (Dict.keys (Dict.set k v d)).
Proof.
  intros Hnd. rewrite keys_set. unfold Dict.mem.
  destruct (Dict.get k d) eqn:E; auto.
  apply get_none_not_in in E.
  apply NoDup_rev in Hnd. rewrite <- (rev_involutive (_ ++ _)).
  apply NoDup_rev. rewrite rev_app_distr. simpl.
  constructor; auto. now rewrite <- in_rev.
Qed.

Lemma in_get {V : Type} (k : string) (v : V) (d : Dict.t V) :
  NoDup (Dict.keys d) -> In (k, v) d -> Dict.get k d = Some v.
Proof.
  induction d as [|[k' v'] d IH]; simpl; [tauto|].
  intros Hnd [H|H].
  - inversion H; subst. now rewrite String.eqb_refl.
  - inversion Hnd as [|? ? Hnotin Hnd']; subst.
    destruct (String.eqb k k') eqn:E.
    + apply String.eqb_eq in E. subst. exfalso. apply Hnotin.
      change k' with (fst (k', v)). now apply in_map.
    + auto.
Qed.

Lemma get_in {V : Type} (k : string) (v : V) (d : Dict.t V) :
  Dict.get k d = Some v -> In (k, v) d.
Proof.
  induction d as [|[k' v'] d IH]; simpl; [discriminate|].
  destruct (String.eqb k k') eqn:E.
  - apply String.eqb_eq in E. intros [= ->]. subst. now left.
  - auto.
Qed.

End DictFacts.

(** ** Grouping *)

Section Grouping.

Import DictFacts.

Lemma group_add_get_same (g : Dict.t (list SensorReading)) (r : SensorReading) :
  Dict.get (sensor_type r) (group_add g r) =
  Some (Dict.get_default (sensor_type r) [] g ++ [r]).
Proof.
  unfold group_add, Dict.get_default.
  destruct (Dict.get (sensor_type r) g); now rewrite get_set_same.
Qed.

Lemma group_add_get_other (g : Dict.t (list SensorReading)) (r : SensorReading)
  (t : string) :
  sensor_type r <> t -> Dict.get t (group_add g r) = Dict.get t g.
Proof.
  intros Hne. unfold group_add.
  destruct (Dict.get (sensor_type r) g); now apply get_set_other.
Qed.

Lemma group_add_NoDup (g : Dict.t (list SensorReading)) (r : SensorReading) :
  NoDup (Dict.keys g) -> NoDup (Dict.keys (group_add g r)).
Proof.
  intros H. unfold group_add.
  destruct (Dict.get (sensor_type r) g); now apply NoDup_keys_set.
Qed.

(** What the grouping loop leaves under a key: the readings of that
    type, in order, after those that were there. *)
Lemma fold_group_add_get (rs : list SensorReading) :
  forall (g : Dict.t (list SensorReading)) (t : string),
    Dict.get t (fold_left group_add rs g) =
    match Dict.get t g, filter (has_type t) rs with
    | Some l, fl => Some (l ++ fl)
    | None, [] => None
    | None, fl => Some fl
    end.
Proof.
  induction rs as [|r rs IH]; intros g t; simpl.
  - destruct (Dict.get t g); auto. now rewrite app_nil_r.
  - rewrite IH. destruct (has_type t r) eqn:E; unfold has_type in E.
    + apply String.eqb_eq in E. subst t. rewrite group_add_get_same.
      unfold Dict.get_default.
      destruct (Dict.get (sensor_type r) g); simpl; auto.
      now rewrite <- app_assoc.
    + apply String.eqb_neq in E. now rewrite group_add_get_other.
Qed.

Lemma fold_group_add_NoDup (rs : list SensorReading) :
  forall g, NoDup (Dict.keys g) -> NoDup (Dict.keys (fold_left group_add rs g)).
Proof.
  induction rs as [|r rs IH]; intros g H; simpl; auto.
  apply IH. now apply group_add_NoDup.
Qed.

Lemma group_by_type_get (rs : list SensorReading) (t : string) :
  Dict.get t (group_by_type rs) =
  match filter (has_type t) rs with
  | [] => None
  | fl => Some fl
  end.
Proof. unfold group_by_type. now rewrite fold_group_add_get. Qed.

Lemma group_by_type_NoDup (rs : list SensorReading) :
  NoDup (Dict.keys (group_by_type rs)).
Proof. apply fold_group_add_NoDup. constructor. Qed.

(** Readings of one type make one group. *)
Lemma fold_group_add_single (t : string) (rs : list SensorReading) :
  Forall (fun r => sensor_type r = t) rs ->
  forall l, fold_left group_add rs [(t, l)] = [(t, l ++ rs)].
Proof.
  induction 1 as [|r rs Hr _ IH]; intros l; simpl.
  - now rewrite app_nil_r.
  - unfold group_add at 2. simpl. rewrite Hr, String.eqb_refl. simpl.
    rewrite IH. now rewrite <- app_assoc.
Qed.

Lemma group_by_type_single (t : string) (rs : list SensorReading) :
  rs <> [] ->
  Forall (fun r => sensor_type r = t) rs ->
  group_by_type rs = [(t, rs)].
Proof.
  intros Hne Hall. destruct rs as [|r rs]; [congruence|].
  inversion Hall as [|? ? Hr Hrs]; subst.
  unfold group_by_type. simpl. unfold group_add at 2. simpl.
  now rewrite fold_group_add_single.
Qed.

(** The groups are the readings of each type that occurs. *)
Lemma group_by_type_in (rs : list SensorReading) (t : string)
  (l : list SensorReading) :
  In (t, l) (group_by_type rs) -> l = filter (has_type t) rs /\ l <> [].
Proof.
  intros Hin. apply in_get in Hin; [|apply group_by_type_NoDup].
  rewrite group_by_type_get in Hin.
  destruct (filter (has_type t) rs); [discriminate|].
  injection Hin as <-. split; [reflexivity | discriminate].
Qed.

End Grouping.

(** ** Cleaning *)

Lemma quality_ok_true (r : SensorReading) :
  quality_ok r = true <-> quality_score r >= 0.5.
Proof.
  unfold quality_ok. destruct (Rge_dec (quality_score r) 0.5); split; auto.
  discriminate.
Qed.

Lemma clean_group_quality (remove_outliers : bool) (z_threshold : R)
  (readings : list SensorReading) (r : SensorReading) :
  In r (clean_group remove_outliers z_threshold readings) ->
  In r readings /\ quality_score r >= 0.5.
Proof.
  unfold clean_group. destruct readings as [|r0 rs]; [intros []|].
  set (l := r0 :: rs).
  destruct (remove_outliers && (3 <? length (filter quality_ok l))%nat).
  - intros Hin. apply in_map_iff in Hin. destruct Hin as [[r' z] [<- Hin]].
    apply filter_In in Hin. destruct Hin as [Hin _].
    apply in_combine_l in Hin. apply filter_In in Hin.
    now rewrite <- quality_ok_true.
  - intros Hin. apply filter_In in Hin. now rewrite <- quality_ok_true.
Qed.

(** ** Anomaly detection *)

Lemma np_mean_example : np_mean [10; 10; 10; 10; 60] = 20.
Proof. unfold np_mean, py_sum. simpl. lra. Qed.

Lemma np_std_example : np_std [10; 10; 10; 10; 60] = 20.
Proof.
  unfold np_std. rewrite np_mean_example. unfold np_mean, py_sum. simpl.
  apply sqrt_lem_1; lra.
Qed.

Lemma is_anomalous_iff (threshold_factor mean_val std_val : R)
  (r : SensorReading) :
  is_anomalous threshold_factor mean_val std_val r = true <->
  Rabs (value r - mean_val) > threshold_factor * std_val.
Proof.
  unfold is_anomalous.
  destruct (Rgt_dec (Rabs (value r - mean_val)) (threshold_factor * std_val));
    split; auto; discriminate.
Qed.

Lemma five_values (readings : list SensorReading) (a b c d e : R) :
  map value readings = [a; b; c; d; e] ->
  exists r1 r2 r3 r4 r5,
    readings = [r1; r2; r3; r4; r5] /\
    value r1 = a /\ value r2 = b /\ value r3 = c /\ value r4 = d /\ value r5 = e.
Proof.
  intros H.
  destruct readings as [|r1 [|r2 [|r3 [|r4 [|r5 [|r6 rs]]]]]]; try discriminate.
  injection H as H1 H2 H3 H4 H5. exists r1, r2, r3, r4, r5. tauto.
Qed.

(** The sample of the specification: mean 20, deviation 20, and the 60 at
    exactly two deviations. *)
Lemma group_anomalies_example (readings : list SensorReading) :
  map value readings = [10; 10; 10; 10; 60] ->
  group_anomalies 2 readings = [].
Proof.
  intros Hv. unfold group_anomalies. rewrite Hv, np_mean_example, np_std_example.
  destruct (five_values _ Hv) as (r1 & r2 & r3 & r4 & r5 & -> & H1 & H2 & H3 & H4 & H5).
  simpl. unfold is_anomalous. rewrite H1, H2, H3, H4, H5.
  replace (10 - 20) with (- (10)) by lra. replace (60 - 20) with 40 by lra.
  rewrite Rabs_Ropp, !Rabs_pos_eq by lra.
  destruct (Rgt_dec 10 (2 * 20)); [lra|].
  destruct (Rgt_dec 40 (2 * 20)); [lra|]. reflexivity.
Qed.

Lemma detect_single_type (t : string) (readings : list SensorReading)
  (threshold_factor : R) :
  Forall (fun r => sensor_type r = t) readings ->
  detect_sensor_anomalies readings threshold_factor =
  group_anomalies threshold_factor readings.
Proof.
  intros Hall. unfold detect_sensor_anomalies.
  destruct readings as [|r rs]; [reflexivity|].
  rewrite (@group_by_type_single t); auto; [|discriminate].
  simpl. now rewrite app_nil_r.
Qed.

(** ** Multi-sensor fusion *)

Section FusionFacts.

Import DictFacts.

Lemma fold_left_Rplus (l : list R) (a : R) :
  fold_left Rplus l a = a + py_sum l.
Proof.
  unfold py_sum. revert a. induction l as [|x l IH]; intros a; simpl.
  - lra.
  - rewrite IH, (IH (0 + x)). lra.
Qed.

Lemma py_sum_cons (x : R) (l : list R) : py_sum (x :: l) = x + py_sum l.
Proof. unfold py_sum at 1. simpl. rewrite fold_left_Rplus. lra. Qed.

Lemma py_sum_unit_quality (l : list SensorReading) :
  Forall (fun r => quality_score r = 1) l ->
  py_sum (map quality_score l) = INR (length l) /\
  py_sum (map (fun r => value r * quality_score r) l) = py_sum (map value l).
Proof.
  induction 1 as [|r l Hr _ [IH1 IH2]].
  - now split.
  - cbn [map length]. rewrite !py_sum_cons, IH1, IH2, Hr, S_INR. split; lra.
Qed.

Lemma weighted_average_positive (l : list SensorReading) :
  0 < py_sum (map quality_score l) ->
  weighted_average l =
  py_sum (map (fun r => value r * quality_score r) l)
  / py_sum (map quality_score l).
Proof.
  intros H. unfold weighted_average.
  destruct (Rgt_dec (py_sum (map quality_score l)) 0); [reflexivity | lra].
Qed.

Lemma weighted_average_zero (l : list SensorReading) :
  py_sum (map quality_score l) = 0 ->
  weighted_average l = np_mean (map value l).
Proof.
  intros H. unfold weighted_average. rewrite H.
  destruct (Rgt_dec 0 0); [lra | reflexivity].
Qed.

Lemma weighted_average_unit_quality (l : list SensorReading) :
  l <> [] ->
  Forall (fun r => quality_score r = 1) l ->
  weighted_average l = np_mean (map value l).
Proof.
  intros Hne Hall. destruct (py_sum_unit_quality Hall) as [Hq Hv].
  assert (Hpos : 0 < INR (length l)).
  { apply lt_0_INR. destruct l; [congruence | simpl; lia]. }
  rewrite weighted_average_positive by lra.
  unfold np_mean. now rewrite Hq, Hv, length_map.
Qed.

(** The weighted-average method never raises, and its result holds one
    entry per group. *)
Lemma fuse_groups_weighted_average (groups : Dict.t (list SensorReading)) :
  NoDup (Dict.keys groups) ->
  forall acc, exists fused,
    fuse_groups "weighted_average" groups acc = Ok fused /\
    forall t, Dict.get t fused =
              match Dict.get t groups with
              | Some l => Some (weighted_average l)
              | None => Dict.get t acc
              end.
Proof.
  induction groups as [|[k l] groups IH]; intros Hnd acc.
  - exists acc. split; [reflexivity|]. intros t. reflexivity.
  - inversion Hnd as [|? ? Hk Hnd']; subst.
    destruct (IH Hnd' (Dict.set k (weighted_average l) acc)) as [fused [Hf Hget]].
    exists fused. split; [exact Hf|]. intros t. rewrite Hget. simpl.
    destruct (String.eqb t k) eqn:E.
    + apply String.eqb_eq in E. subst t.
      apply get_none_not_in in Hk. rewrite Hk. apply get_set_same.
    + apply String.eqb_neq in E.
      destruct (Dict.get t groups); auto.
      apply get_set_other. congruence.
Qed.

Lemma multi_sensor_fusion_total (readings : list SensorReading) :
  exists fused,
    multi_sensor_fusion readings "weighted_average" = Ok fused /\
    forall t, Dict.get t fused =
              match filter (has_type t) readings with
              | [] => None
              | l => Some (weighted_average l)
              end.
Proof.
  destruct readings as [|r rs].
  - exists Dict.empty. split; reflexivity.
  - unfold multi_sensor_fusion.
    destruct (@fuse_groups_weighted_average (group_by_type (r :: rs))
                (group_by_type_NoDup _) Dict.empty) as [fused [Hf Hget]].
    exists fused. split; [exact Hf|]. intros t.
    rewrite Hget, group_by_type_get.
    now destruct (filter (has_type t) (r :: rs)).
Qed.

End FusionFacts.

(** ** The recursive estimator *)

Lemma py_div_ok (x y : R) : y <> 0 -> py_div x y = Ok (x / y).
Proof. intros H. unfold py_div. destruct (Req_dec_T y 0); [contradiction | reflexivity]. Qed.

Lemma last_cons_default {A : Type} (x : A) (l : list A) (d d' : A) :
  last (x :: l) d = last (x :: l) d'.
Proof.
  revert x. induction l as [|y l IH]; intros x; [reflexivity|].
  change (last (y :: l) d = last (y :: l) d'). apply IH.
Qed.

Lemma kalman_loop_trace (readings : list SensorReading) :
  forall st tr,
    kalman_trace st readings = Ok tr ->
    kalman_loop st readings = Ok (last tr st).
Proof.
  induction readings as [|r rs IH]; intros st tr; simpl.
  - now intros [= <-].
  - destruct (kalman_step st r) as [st'|e]; simpl; [|discriminate].
    destruct (kalman_trace st' rs) as [tr'|e] eqn:E; simpl; [|discriminate].
    intros [= <-]. rewrite (IH _ _ E). f_equal.
    destruct tr' as [|p tr']; [reflexivity|].
    change (last (p :: tr') st' = last (p :: tr') st). apply last_cons_default.
Qed.

(** One update on a reading of value 10 and quality 1 from an estimate of
    10: the estimate stays, the error goes from [e] to
    [(e + 0.1) / (e + 1.1)]. *)
Lemma kalman_step_ten (e : R) (r : SensorReading) :
  value r = 10 -> quality_score r = 1 -> 0 < e ->
  kalman_step (10, e) r = Ok (10, (e + 0.1) / (e + 1.1)).
Proof.
  intros Hv Hq He. unfold kalman_step. rewrite Hv, Hq.
  rewrite py_div_ok by lra. simpl.
  rewrite py_div_ok by (replace (1 / 1) with 1 by field; lra). simpl.
  replace 0.1 with (1 / 10) by lra. replace 1.1 with (11 / 10) by lra.
  apply f_equal. apply f_equal2; field; lra.
Qed.

(** ** Streaming buffers *)

Section StreamingFacts.

Import DictFacts.

Lemma skipn_S_tl {A : Type} (k : nat) (l : list A) :
  skipn (S k) l = tl (skipn k l).
Proof.
  revert l. induction k as [|k IH]; intros [|x l]; try reflexivity.
  change (skipn (S k) l = tl (skipn k l)). apply IH.
Qed.

Lemma lastn_length {A : Type} (n : nat) (l : list A) :
  length (lastn n l) = Nat.min n (length l).
Proof. unfold lastn. rewrite length_skipn. lia. Qed.

(** Appending to a window of the last [n] elements and dropping its
    first element when it overflows gives the window of the extended
    list. *)
Lemma lastn_snoc {A : Type} (n : nat) (l : list A) (x : A) :
  lastn n (l ++ [x]) =
  if (n <? length (lastn n l ++ [x]))%nat
  then tl (lastn n l ++ [x])
  else lastn n l ++ [x].
Proof.
  rewrite length_app, lastn_length. simpl length. unfold lastn.
  rewrite length_app. simpl length.
  destruct (Nat.ltb_spec n (Nat.min n (length l) + 1)) as [H|H].
  - replace (length l + 1 - n)%nat with (S (length l - n)) by lia.
    rewrite skipn_S_tl, skipn_app.
    replace (length l - n - length l)%nat with 0%nat by lia. reflexivity.
  - replace (length l + 1 - n)%nat with 0%nat by lia.
    replace (length l - n)%nat with 0%nat by lia. reflexivity.
Qed.

Lemma buffer_push_get (size : Z) (buffer : Dict.t (list SensorReading))
  (r : SensorReading) (t : string) :
  Dict.get_default t [] (buffer_push size buffer r) =
  if has_type t r
  then
    let appended := Dict.get_default t [] buffer ++ [r] in
    if (size <? Z.of_nat (length appended))%Z then tl appended else appended
  else Dict.get_default t [] buffer.
Proof.
  unfold buffer_push, has_type.
  destruct (String.eqb (sensor_type r) t) eqn:E.
  - apply String.eqb_eq in E. subst t. cbv zeta.
    destruct (_ <? _)%Z; unfold Dict.get_default at 1; now rewrite get_set_same.
  - apply String.eqb_neq in E. unfold Dict.get_default at 1 4.
    destruct (_ <? _)%Z; now rewrite get_set_other.
Qed.

Lemma add_streaming_reading_ok (self : RealTimeFusion) (now : Z)
  (r : SensorReading) :
  exists fused,
    add_streaming_reading self now r =
    Ok ({| rt_field_id := rt_field_id self;
           buffer_size := buffer_size self;
           reading_buffer := buffer_push (buffer_size self) (reading_buffer self) r;
           fusion_engine := fusion_engine self |}, fused).
Proof.
  unfold add_streaming_reading.
  destruct (flat_map _ _) as [|x recent] eqn:E; [eauto|].
  destruct (multi_sensor_fusion_total (x :: recent)) as [fused [Hf _]].
  rewrite Hf. simpl. eauto.
Qed.

Lemma stream_buffers (calls : list (Z * SensorReading)) :
  forall (self : RealTimeFusion) (pre : list SensorReading),
    (0 <= buffer_size self)%Z ->
    (forall t, Dict.get_default t [] (reading_buffer self) =
               lastn (Z.to_nat (buffer_size self)) (filter (has_type t) pre)) ->
    exists st,
      stream self calls = Ok st /\
      buffer_size st = buffer_size self /\
      forall t, Dict.get_default t [] (reading_buffer st) =
                lastn (Z.to_nat (buffer_size self))
                  (filter (has_type t) (pre ++ map snd calls)).
Proof.
  induction calls as [|[now r] calls IH]; intros self pre Hsize Hinv.
  - exists self. simpl. rewrite app_nil_r. auto.
  - simpl. destruct (add_streaming_reading_ok self now r) as [fused ->].
    simpl. set (self' := mkRealTime _ _ _ _).
    destruct (IH self' (pre ++ [r])) as (st & Hst & Hsz & Hbuf); auto.
    + intros t. simpl. rewrite buffer_push_get, filter_app. simpl.
      destruct (has_type t r); [|now rewrite app_nil_r].
      cbv zeta. rewrite Hinv, lastn_snoc.
      set (w := lastn _ _ ++ [r]).
      replace (buffer_size self <? Z.of_nat (length w))%Z
        with (Z.to_nat (buffer_size self) <? length w)%nat; [reflexivity|].
      destruct (Nat.ltb_spec (Z.to_nat (buffer_size self)) (length w));
        symmetry; [apply Z.ltb_lt | apply Z.ltb_ge]; lia.
    + exists st. repeat split; auto.
      intros t. rewrite Hbuf. simpl. now rewrite <- app_assoc.
Qed.

End StreamingFacts.

(** ** Calibration *)

Lemma deref_app (h news : heap) (a : ref) (o : SensorReading) :
  deref h a = Some o -> deref (h ++ news) a = Some o.
Proof.
  unfold deref. intros H. rewrite nth_error_app1; auto.
  apply nth_error_Some. congruence.
Qed.

(** The loop on objects extends the store by the calibrated readings and
    computes, address by address, what the loop on values computes. *)
Lemma apply_calibration_heap_spec (self : SensorDataFusion) (readings : list ref) :
  forall h : heap,
    Forall (fun a => (a < length h)%nat) readings ->
    exists news out,
      apply_calibration_heap self h readings = Some (h ++ news, out) /\
      length out = length readings /\
      forall i a r,
        nth_error readings i = Some a -> deref h a = Some r ->
        exists a',
          nth_error out i = Some a' /\
          deref (h ++ news) a' = Some (calibrate_reading self r) /\
          match Dict.get (sensor_type r) (calibration_factors self) with
          | Some _ => (length h <= a')%nat
          | None => a' = a
          end.
Proof.
  induction readings as [|a rest IH]; intros h Hvalid.
  - exists [], []. simpl. rewrite app_nil_r. repeat split; auto.
    intros [|i] ? ? H; discriminate H.
  - inversion Hvalid as [|? ? Ha Hrest]; subst.
    destruct (deref h a) as [reading|] eqn:Hd;
      [|apply nth_error_None in Hd; lia].
    simpl. rewrite Hd.
    destruct (Dict.get (sensor_type reading) (calibration_factors self))
      as [factors|] eqn:Hf.
    + destruct (IH (h ++ [calibrated factors reading])) as (news & out & Hrun & Hlen & Hout).
      { eapply Forall_impl; [|exact Hrest]. simpl. intros b Hb.
        rewrite length_app. simpl. lia. }
      rewrite Hrun. exists (calibrated factors reading :: news), (length h :: out).
      rewrite <- app_assoc in *. simpl in *. repeat split; auto.
      intros [|i] b r Hb Hr; simpl in Hb.
      * injection Hb as <-. rewrite Hd in Hr. injection Hr as <-.
        exists (length h). simpl. rewrite Hf. repeat split; auto.
        unfold deref, calibrate_reading. rewrite Hf.
        rewrite nth_error_app2, Nat.sub_diag; auto.
      * destruct (Hout i b r Hb (@deref_app _ _ _ _ Hr)) as (a' & Ha' & Hda' & Hfresh).
        exists a'. simpl. repeat split; auto.
        destruct (Dict.get (sensor_type r) (calibration_factors self)); auto.
        rewrite length_app in Hfresh. simpl in Hfresh. lia.
    + destruct (IH h Hrest) as (news & out & Hrun & Hlen & Hout).
      rewrite Hrun. exists news, (a :: out). simpl. repeat split; auto.
      intros [|i] b r Hb Hr; simpl in Hb.
      * injection Hb as <-. rewrite Hd in Hr. injection Hr as <-.
        exists a. simpl. rewrite Hf. repeat split; auto.
        unfold calibrate_reading. rewrite Hf. now apply deref_app.
      * apply (Hout i b r Hb Hr).
Qed.

(** ** Spatial fusion *)

Section SpatialFacts.

Import DictFacts.

Variable can_allocate : nat -> bool.
Variable rbf : Type.
Variable Rbf : list R -> list R -> list R -> list R -> result rbf.
Variable Rbf_call : rbf -> grid -> grid -> result grid.



(** A zero cell size stops the construction of the grid. *)
Lemma build_grid_zero_cell (l : list SensorReading) :
  build_grid can_allocate 0 l = Raise ZeroDivisionError.
Proof.
  unfold build_grid, np_arange.
  destruct (Req_dec_T (0 / 111000) 0) as [_|Hne]; [reflexivity|].
  exfalso. apply Hne. lra.
Qed.

Lemma fuse_spatial_group_short (grid_size : R) (l : list SensorReading) :
  (length l < 3)%nat ->
  fuse_spatial_group can_allocate Rbf Rbf_call grid_size l = Ok None.
Proof.
  intros H. unfold fuse_spatial_group.
  now destruct (Nat.ltb_spec (length l) 3); [|lia].
Qed.




Lemma group_located_filter (rs : list SensorReading) :
  forall g, fold_left group_add_located rs g =
            fold_left group_add (filter is_located rs) g.
Proof.
  induction rs as [|r rs IH]; intros g; [reflexivity|].
  simpl. unfold group_add_located at 2, is_located at 1.
  destruct (location r); simpl; apply IH.
Qed.

Lemma group_located_get (readings : list SensorReading) (t : string) :
  Dict.get t (group_located readings) =
  match filter (has_type t) (filter is_located readings) with
  | [] => None
  | l => Some l
  end.
Proof.
  unfold group_located. rewrite group_located_filter.
  apply group_by_type_get.
Qed.

Lemma group_located_in (readings : list SensorReading) (t : string)
  (l : list SensorReading) :
  In (t, l) (group_located readings) ->
  l = filter (has_type t) (filter is_located readings).
Proof.
  unfold group_located. rewrite group_located_filter.
  intros H. now apply group_by_type_in in H.
Qed.


End SpatialFacts.

(** * The claims of the specification *)

(** ** Anomaly detection on the sample [10, 10, 10, 10, 60] *)

Lemma anomaly_sample_values :
  map value anomaly_sample = [10; 10; 10; 10; 60].
Proof. reflexivity. Qed.

Lemma anomaly_sample_type :
  Forall (fun r => sensor_type r = "soil_moisture") anomaly_sample.
Proof. repeat constructor. Qed.

(** C1, as stated, fails: on the sample with [threshold_factor = 2] the
    reading of value 60 belongs to the input and is not returned; nothing
    is. *)
Lemma detect_sensor_anomalies_sample_empty :
  In (sample_reading "soil_moisture" 60 1) anomaly_sample /\
  detect_sensor_anomalies anomaly_sample 2 = [].
Proof.
  split.
  - simpl. tauto.
  - rewrite (detect_single_type _ anomaly_sample_type).
    apply group_anomalies_example, anomaly_sample_values.
Qed.

(** C1, amended: for five readings of one sensor type with the values
    [10, 10, 10, 10, 60], [detect_sensor_anomalies] with
    [threshold_factor = 2] returns no reading (the mean is 20, the
    deviation 20, and the 60 lies at exactly two deviations); for any
    threshold a reading of the five is returned iff
    [|value - mean| > threshold_factor * std], strictly. *)
Theorem detect_sensor_anomalies_five (t : string) (readings : list SensorReading) :
  Forall (fun r => sensor_type r = t) readings ->
  map value readings = [10; 10; 10; 10; 60] ->
  detect_sensor_anomalies readings 2 = [] /\
  forall threshold_factor r,
    In r (detect_sensor_anomalies readings threshold_factor) <->
    In r readings /\
    Rabs (value r - np_mean (map value readings))
    > threshold_factor * np_std (map value readings).
Proof.
  intros Htype Hvalues. split.
  - rewrite (detect_single_type _ Htype). now apply group_anomalies_example.
  - intros threshold_factor r. rewrite (detect_single_type _ Htype).
    unfold group_anomalies.
    assert (Hlen : length readings = 5%nat).
    { rewrite <- (length_map value), Hvalues. reflexivity. }
    rewrite Hlen. change (5 <? 5)%nat with false. cbv beta iota zeta.
    rewrite filter_In, is_anomalous_iff. reflexivity.
Qed.

Lemma detect_sensor_anomalies_five_witness :
  detect_sensor_anomalies anomaly_sample 2 = [] /\
  forall threshold_factor r,
    In r (detect_sensor_anomalies anomaly_sample threshold_factor) <->
    In r anomaly_sample /\
    Rabs (value r - np_mean (map value anomaly_sample))
    > threshold_factor * np_std (map value anomaly_sample).
Proof.
  apply (@detect_sensor_anomalies_five "soil_moisture" anomaly_sample).
  - repeat constructor.
  - reflexivity.
Defined.

(** The same run on binary64: every intermediate value (100, 20, 2000, 400,
    20, 40) is an integer, and nothing is flagged. *)
Example binary64_anomaly_sample :
  Binary64.f_std [10; 10; 10; 10; 60]%float = 20%float /\
  Binary64.f_group_anomalies 2%float [10; 10; 10; 10; 60]%float = [].
Proof. split; vm_compute; reflexivity. Qed.

(** ** Ingestion *)

(** C2, as stated, fails: a reading of quality score 2 is accepted by
    [add_reading] and by [add_streaming_reading]. *)
Lemma ingest_out_of_range_accepted :
  1 < quality_score out_of_range_reading /\
  (exists self', add_reading (SensorDataFusion_init 1) out_of_range_reading = Ok self') /\
  (exists p, add_streaming_reading (RealTimeFusion_init 1 1000) 0
               out_of_range_reading = Ok p).
Proof.
  split; [simpl; lra|]. split.
  - eexists. reflexivity.
  - destruct (add_streaming_reading_ok (RealTimeFusion_init 1 1000) 0
                out_of_range_reading) as [fused H].
    eexists. exact H.
Qed.

(** C2, amended: ingestion validates nothing.  For every reading,
    [add_reading] succeeds and appends it to the stored readings, and
    [add_streaming_reading] succeeds and pushes it on the buffer of its
    type; no [InvalidReading] is ever raised. *)
Theorem ingest_always_succeeds (reading : SensorReading) :
  (forall self, exists self',
      add_reading self reading = Ok self' /\
      sensor_readings self' = sensor_readings self ++ [reading]) /\
  (forall self now, exists self' fused,
      add_streaming_reading self now reading = Ok (self', fused) /\
      reading_buffer self' =
      buffer_push (buffer_size self) (reading_buffer self) reading).
Proof.
  split.
  - intros self. eexists. split; reflexivity.
  - intros self now.
    destruct (add_streaming_reading_ok self now reading) as [fused H].
    eexists. exists fused. split; [exact H | reflexivity].
Qed.

(** ** Cleaning *)

(** C7: no reading whose quality score is below 0.5 is in the output of
    [clean_data], whatever the stored readings and the outlier settings. *)
Theorem clean_data_excludes_low_quality (self : SensorDataFusion)
  (remove_outliers : bool) (z_threshold : R) (r : SensorReading) :
  quality_score r < 0.5 ->
  ~ In r (clean_data self remove_outliers z_threshold).
Proof.
  intros Hlow Hin. unfold clean_data in Hin.
  apply in_flat_map in Hin. destruct Hin as [[t l] [_ Hin]].
  apply clean_group_quality in Hin. lra.
Qed.

Lemma clean_data_excludes_low_quality_witness :
  quality_score low_quality_reading < 0.5 /\
  In low_quality_reading (sensor_readings cleaning_engine) /\
  ~ In low_quality_reading (clean_data cleaning_engine true 3).
Proof.
  assert (H : quality_score low_quality_reading < 0.5) by (simpl; lra).
  split; [exact H|]. split; [simpl; tauto|].
  exact (@clean_data_excludes_low_quality cleaning_engine true 3
           low_quality_reading H).
Defined.

(** ** Fusion report *)

(** C8: [generate_fusion_report] returns, and the fused values it embeds
    as [fusion_summary] are those of [multi_sensor_fusion] called on the
    same readings with the weighted-average method. *)
Theorem fusion_report_summary (self : SensorDataFusion) (now : Z)
  (readings : list SensorReading) :
  exists report,
    generate_fusion_report self now readings = Ok report /\
    multi_sensor_fusion readings "weighted_average" = Ok (fusion_summary report).
Proof.
  destruct readings as [|r rs].
  - eexists. split; reflexivity.
  - destruct (multi_sensor_fusion_total (r :: rs)) as [fused [Hf _]].
    unfold generate_fusion_report. rewrite Hf. simpl.
    eexists. split; reflexivity.
Qed.

(** ** Streaming buffers *)

(** C3: for a capacity [buffer_size >= 0] and every sequence of calls to
    [add_streaming_reading] on a new service, every call returns, and on
    return the buffer of each sensor type holds at most [buffer_size]
    readings: the most recent ones of that type, in insertion order.  After
    [capacity + k] insertions of one type the buffer is the inserted
    sequence without its [k] oldest readings. *)
Theorem streaming_buffer_bounded (fid size : Z) (calls : list (Z * SensorReading)) :
  (0 <= size)%Z ->
  exists st,
    stream (RealTimeFusion_init fid size) calls = Ok st /\
    forall t,
      let inserted := filter (has_type t) (map snd calls) in
      let buf := Dict.get_default t [] (reading_buffer st) in
      (Z.of_nat (length buf) <= size)%Z /\
      buf = lastn (Z.to_nat size) inserted /\
      forall k, length inserted = (Z.to_nat size + k)%nat ->
                length buf = Z.to_nat size /\ buf = skipn k inserted.
Proof.
  intros Hsize.
  destruct (@stream_buffers calls (RealTimeFusion_init fid size) [] Hsize)
    as (st & Hrun & _ & Hbuf).
  { intros t. reflexivity. }
  exists st. split; [exact Hrun|]. intros t inserted buf.
  assert (Heq : buf = lastn (Z.to_nat size) inserted) by apply Hbuf.
  repeat split.
  - rewrite Heq, lastn_length. lia.
  - exact Heq.
  - rewrite Heq, lastn_length. lia.
  - rewrite Heq. unfold lastn. f_equal. lia.
Qed.

Lemma streaming_buffer_bounded_witness :
  exists st,
    stream (RealTimeFusion_init 1 2) stream_calls = Ok st /\
    forall t,
      let inserted := filter (has_type t) (map snd stream_calls) in
      let buf := Dict.get_default t [] (reading_buffer st) in
      (Z.of_nat (length buf) <= 2)%Z /\
      buf = lastn (Z.to_nat 2) inserted /\
      forall k, length inserted = (Z.to_nat 2 + k)%nat ->
                length buf = Z.to_nat 2 /\ buf = skipn k inserted.
Proof.
  apply (@streaming_buffer_bounded 1 2 stream_calls). lia.
Defined.

(** ** Weighted-average fusion *)

(** C4: for the readings of a sensor type that occurs in the input,
    [multi_sensor_fusion] with the method ['weighted_average'] returns, for
    that type, [sum (value * quality) / sum quality] when the total quality
    is positive and the arithmetic mean of the values when it is zero; when
    every quality score is 1 the result is the arithmetic mean. *)
Theorem multi_sensor_fusion_weighted_average (readings : list SensorReading)
  (t : string) :
  let group := filter (has_type t) readings in
  group <> [] ->
  exists fused,
    multi_sensor_fusion readings "weighted_average" = Ok fused /\
    let total := py_sum (map quality_score group) in
    (0 < total ->
     Dict.get t fused =
     Some (py_sum (map (fun r => value r * quality_score r) group) / total)) /\
    (total = 0 -> Dict.get t fused = Some (np_mean (map value group))) /\
    (Forall (fun r => quality_score r = 1) group ->
     Dict.get t fused = Some (py_sum (map value group) / INR (length group))).
Proof.
  intros group Hne.
  destruct (multi_sensor_fusion_total readings) as [fused [Hrun Hget]].
  exists fused. split; [exact Hrun|].
  assert (Ht : Dict.get t fused = Some (weighted_average group)).
  { rewrite Hget. fold group. destruct group; [congruence | reflexivity]. }
  cbv zeta. rewrite Ht. repeat split.
  - intros Hpos. now rewrite weighted_average_positive.
  - intros Hzero. now rewrite weighted_average_zero.
  - intros Hall. rewrite weighted_average_unit_quality by assumption.
    unfold np_mean. now rewrite length_map.
Qed.

Lemma multi_sensor_fusion_weighted_average_witness :
  exists fused,
    multi_sensor_fusion three_tens "weighted_average" = Ok fused /\
    let group := filter (has_type "temperature") three_tens in
    let total := py_sum (map quality_score group) in
    (0 < total ->
     Dict.get "temperature" fused =
     Some (py_sum (map (fun r => value r * quality_score r) group) / total)) /\
    (total = 0 ->
     Dict.get "temperature" fused = Some (np_mean (map value group))) /\
    (Forall (fun r => quality_score r = 1) group ->
     Dict.get "temperature" fused =
     Some (py_sum (map value group) / INR (length group))).
Proof.
  apply (@multi_sensor_fusion_weighted_average three_tens "temperature").
  discriminate.
Defined.

(** ** The recursive estimator *)

(** The loop of [_kalman_filter_fusion] ends in the last state of its
    trace, and fails when the trace fails. *)
Lemma kalman_loop_last_of_trace (readings : list SensorReading) :
  forall st,
    kalman_loop st readings =
    (tr <- kalman_trace st readings ;; Ok (last tr st)).
Proof.
  induction readings as [|r rs IH]; intros st; [reflexivity|].
  cbn [kalman_loop kalman_trace].
  destruct (kalman_step st r) as [st'|e]; cbn [bind]; [|reflexivity].
  rewrite IH. destruct (kalman_trace st' rs) as [tr|e]; cbn [bind]; [|reflexivity].
  f_equal. destruct tr as [|p tr]; [reflexivity|].
  change (last (p :: tr) st' = last (p :: tr) st). apply last_cons_default.
Qed.

(** C5: on three readings of value 10 and quality score 1, taken in
    insertion order from the state (first value, 1.0), the two updates
    succeed, the estimate is 10 after each of them (its distance to 10
    never grows), the estimate error decreases strictly at each update
    (1 > 11/21 > 131/341), and the fused value is 10.  The states are those
    of the function: its loop is in state (10, 11/21) after the second
    reading and in state (10, 131/341) after the third, and on every input
    the function returns the estimate of the last state of the trace. *)
Theorem kalman_three_tens (r1 r2 r3 : SensorReading) :
  Forall (fun r => value r = 10 /\ quality_score r = 1) [r1; r2; r3] ->
  (forall first rest,
      _kalman_filter_fusion (first :: rest) =
      (tr <- kalman_trace (value first, 1) rest ;;
       Ok (fst (last tr (value first, 1))))) /\
  exists e1 e2,
    kalman_trace (value r1, 1) [r2; r3] = Ok [(10, e1); (10, e2)] /\
    kalman_loop (value r1, 1) [r2] = Ok (10, e1) /\
    kalman_loop (value r1, 1) [r2; r3] = Ok (10, e2) /\
    e1 = 11 / 21 /\ e2 = 131 / 341 /\
    e1 < 1 /\ e2 < e1 /\
    _kalman_filter_fusion [r1; r2; r3] = Ok 10.
Proof.
  intros Hall. split.
  { intros first rest. unfold _kalman_filter_fusion.
    rewrite kalman_loop_last_of_trace.
    now destruct (kalman_trace (value first, 1) rest). }
  inversion Hall as [|? ? [Hv1 Hq1] Hall2]; subst.
  inversion Hall2 as [|? ? [Hv2 Hq2] Hall3]; subst.
  inversion Hall3 as [|? ? [Hv3 Hq3] _]; subst.
  assert (Hstep1 : kalman_step (value r1, 1) r2 = Ok (10, 11 / 21)).
  { rewrite Hv1, (@kalman_step_ten 1 r2 Hv2 Hq2) by lra.
    now replace ((1 + 0.1) / (1 + 1.1)) with (11 / 21) by lra. }
  assert (Hstep2 : kalman_step (10, 11 / 21) r3 = Ok (10, 131 / 341)).
  { rewrite (@kalman_step_ten (11 / 21) r3 Hv3 Hq3) by lra.
    replace ((11 / 21 + 0.1) / (11 / 21 + 1.1)) with (131 / 341);
      [reflexivity|].
    replace 0.1 with (1 / 10) by lra. replace 1.1 with (11 / 10) by lra.
    field. }
  assert (Htrace : kalman_trace (value r1, 1) [r2; r3] =
                   Ok [(10, 11 / 21); (10, 131 / 341)]).
  { cbn [kalman_trace]. rewrite Hstep1. cbn [bind]. rewrite Hstep2. reflexivity. }
  exists (11 / 21), (131 / 341).
  split; [exact Htrace|]. split; [|split].
  - cbn [kalman_loop]. now rewrite Hstep1.
  - rewrite kalman_loop_last_of_trace, Htrace. reflexivity.
  - repeat split; try lra.
    unfold _kalman_filter_fusion.
    rewrite kalman_loop_last_of_trace, Htrace. reflexivity.
Qed.

Lemma kalman_three_tens_witness :
  (forall first rest,
      _kalman_filter_fusion (first :: rest) =
      (tr <- kalman_trace (value first, 1) rest ;;
       Ok (fst (last tr (value first, 1))))) /\
  exists e1 e2,
    kalman_trace (10, 1) (tl three_tens) = Ok [(10, e1); (10, e2)] /\
    kalman_loop (10, 1) [sample_reading "temperature" 10 1] = Ok (10, e1) /\
    kalman_loop (10, 1) (tl three_tens) = Ok (10, e2) /\
    e1 = 11 / 21 /\ e2 = 131 / 341 /\
    e1 < 1 /\ e2 < e1 /\
    _kalman_filter_fusion three_tens = Ok 10.
Proof.
  apply (@kalman_three_tens (sample_reading "temperature" 10 1)
           (sample_reading "temperature" 10 1)
           (sample_reading "temperature" 10 1)).
  repeat constructor.
Defined.

(** The two updates of C5 on binary64: the estimate stays 10.0 and the
    estimate error decreases at both steps. *)
Example binary64_kalman_three_tens :
  exists e1 e2,
    Binary64.f_kalman_trace (10, 1)%float [(10, 1); (10, 1)]%float
    = [(10%float, e1); (10%float, e2)] /\
    PrimFloat.ltb e1 1%float = true /\ PrimFloat.ltb e2 e1 = true.
Proof.
  eexists. eexists. split; [vm_compute; reflexivity|].
  split; vm_compute; reflexivity.
Qed.

(** ** Calibration *)

Lemma calibrate_reading_neutral (self : SensorDataFusion) (r : SensorReading) :
  (forall t factors,
      Dict.get t (calibration_factors self) = Some factors ->
      Dict.get_default "slope" 1 factors = 1 /\
      Dict.get_default "offset" 0 factors = 0) ->
  value (calibrate_reading self r) = value r.
Proof.
  intros Hneutral. unfold calibrate_reading.
  destruct (Dict.get (sensor_type r) (calibration_factors self))
    as [factors|] eqn:E; [|reflexivity].
  destruct (Hneutral _ _ E) as [Hs Ho]. simpl. rewrite Hs, Ho. lra.
Qed.

(** C6: [apply_calibration] maps the readings one to one, in order; a
    reading whose type has no registered factors is returned as it is, and
    one whose type has factors gets the value [slope * value + offset]
    (the defaults being slope 1 and offset 0); when every registered slope
    is 1 and offset 0, calibrating twice gives the values that calibrating
    once gives. *)
Theorem apply_calibration_identity_linear_idempotent (self : SensorDataFusion)
  (readings : list SensorReading) :
  length (apply_calibration self readings) = length readings /\
  (forall i r,
      nth_error readings i = Some r ->
      match Dict.get (sensor_type r) (calibration_factors self) with
      | None => nth_error (apply_calibration self readings) i = Some r
      | Some factors =>
          exists r',
            nth_error (apply_calibration self readings) i = Some r' /\
            value r' =
            Dict.get_default "slope" 1 factors * value r
            + Dict.get_default "offset" 0 factors
      end) /\
  ((forall t factors,
       Dict.get t (calibration_factors self) = Some factors ->
       Dict.get_default "slope" 1 factors = 1 /\
       Dict.get_default "offset" 0 factors = 0) ->
   map value (apply_calibration self (apply_calibration self readings)) =
   map value (apply_calibration self readings)).
Proof.
  unfold apply_calibration. repeat split.
  - apply length_map.
  - intros i r Hi.
    assert (Hn : nth_error (map (calibrate_reading self) readings) i =
                 Some (calibrate_reading self r)).
    { rewrite nth_error_map, Hi. reflexivity. }
    unfold calibrate_reading in Hn.
    destruct (Dict.get (sensor_type r) (calibration_factors self)) as [factors|];
      [|exact Hn].
    eexists. split; [exact Hn | reflexivity].
  - intros Hneutral. rewrite !map_map. apply map_ext. intros r.
    now apply calibrate_reading_neutral.
Qed.

Lemma apply_calibration_neutral_witness :
  map value
    (apply_calibration neutral_engine
       (apply_calibration neutral_engine [low_quality_reading])) =
  map value (apply_calibration neutral_engine [low_quality_reading]).
Proof.
  apply (@apply_calibration_identity_linear_idempotent neutral_engine
           [low_quality_reading]).
  intros t factors. simpl.
  destruct (String.eqb t "humidity"); [|discriminate].
  intros [= <-]. split; reflexivity.
Defined.

(** C10: run on valid addresses of a store, [apply_calibration] returns;
    every object of the input store is in the output store, unchanged; and
    for a reading whose type has registered factors the output holds the
    address of a new object whose [sensor_id], [sensor_type], [unit],
    [timestamp], [location] and [quality_score] are those of the input
    reading, and whose metadata is the input's with ['calibrated'] set to
    [True]. *)
Theorem apply_calibration_frame (self : SensorDataFusion) (h : heap)
  (readings : list ref) :
  Forall (fun a => (a < length h)%nat) readings ->
  exists h' out,
    apply_calibration_heap self h readings = Some (h', out) /\
    (forall a o, deref h a = Some o -> deref h' a = Some o) /\
    forall i a r factors,
      nth_error readings i = Some a ->
      deref h a = Some r ->
      Dict.get (sensor_type r) (calibration_factors self) = Some factors ->
      exists a' r',
        nth_error out i = Some a' /\ deref h' a' = Some r' /\
        deref h a' = None /\
        sensor_id r' = sensor_id r /\
        sensor_type r' = sensor_type r /\
        unit_ r' = unit_ r /\
        timestamp r' = timestamp r /\
        location r' = location r /\
        quality_score r' = quality_score r /\
        value r' =
        Dict.get_default "slope" 1 factors * value r
        + Dict.get_default "offset" 0 factors /\
        Dict.get "calibrated" (metadata r') = Some (PyBool true) /\
        (forall k, k <> "calibrated" ->
                   Dict.get k (metadata r') = Dict.get k (metadata r)) /\
        metadata r' = Dict.set "calibrated" (PyBool true) (metadata r).
Proof.
  intros Hvalid.
  destruct (@apply_calibration_heap_spec self readings h Hvalid)
    as (news & out & Hrun & _ & Hout).
  exists (h ++ news), out. split; [exact Hrun|]. split.
  - intros a o Ha. now apply deref_app.
  - intros i a r factors Hi Hr Hf.
    destruct (Hout i a r Hi Hr) as (a' & Ha' & Hda' & Hfresh).
    rewrite Hf in Hfresh. unfold calibrate_reading in Hda'. rewrite Hf in Hda'.
    exists a', (calibrated factors r). simpl.
    repeat split; auto.
    + now apply nth_error_None.
    + apply DictFacts.get_set_same.
    + intros k Hk. apply DictFacts.get_set_other. congruence.
Qed.

Lemma apply_calibration_frame_witness :
  exists h' out,
    apply_calibration_heap linear_engine [low_quality_reading] [0%nat]
    = Some (h', out) /\
    (forall a o, deref [low_quality_reading] a = Some o -> deref h' a = Some o) /\
    forall i a r factors,
      nth_error [0%nat] i = Some a ->
      deref [low_quality_reading] a = Some r ->
      Dict.get (sensor_type r) (calibration_factors linear_engine) = Some factors ->
      exists a' r',
        nth_error out i = Some a' /\ deref h' a' = Some r' /\
        deref [low_quality_reading] a' = None /\
        sensor_id r' = sensor_id r /\
        sensor_type r' = sensor_type r /\
        unit_ r' = unit_ r /\
        timestamp r' = timestamp r /\
        location r' = location r /\
        quality_score r' = quality_score r /\
        value r' =
        Dict.get_default "slope" 1 factors * value r
        + Dict.get_default "offset" 0 factors /\
        Dict.get "calibrated" (metadata r') = Some (PyBool true) /\
        (forall k, k <> "calibrated" ->
                   Dict.get k (metadata r') = Dict.get k (metadata r)) /\
        metadata r' = Dict.set "calibrated" (PyBool true) (metadata r).
Proof.
  apply (@apply_calibration_frame linear_engine [low_quality_reading] [0%nat]).
  repeat constructor.
Defined.

(** ** Spatial fusion *)




(** * Further properties of the code *)

(** ** Operations that work group by group *)

Lemma filter_all {A : Type} (p : A -> bool) (l : list A) :
  (forall x, In x l -> p x = true) -> filter p l = l.
Proof.
  induction l as [|x l IH]; intros H; simpl; [reflexivity|].
  rewrite (H x) by (now left). f_equal. apply IH. intros y Hy. apply H. now right.
Qed.

Lemma filter_none {A : Type} (p : A -> bool) (l : list A) :
  (forall x, In x l -> p x = false) -> filter p l = [].
Proof.
  induction l as [|x l IH]; intros H; simpl; [reflexivity|].
  rewrite (H x) by (now left). apply IH. intros y Hy. apply H. now right.
Qed.

(** An operation that maps each group to readings of the group's type
    contributes, for a type, what it makes of that type's group. *)
Lemma flat_map_groups_filter (f : list SensorReading -> list SensorReading)
  (t : string) (d : Dict.t (list SensorReading)) :
  NoDup (Dict.keys d) ->
  (forall k l r, In (k, l) d -> In r (f l) -> sensor_type r = k) ->
  filter (has_type t) (flat_map (fun g => f (snd g)) d) =
  match Dict.get t d with Some l => f l | None => [] end.
Proof.
  induction d as [|[k l] d IH]; intros Hnd Htype; [reflexivity|].
  inversion Hnd as [|? ? Hk Hnd']; subst.
  simpl. rewrite filter_app, IH; auto.
  2:{ intros k' l' r Hin. apply Htype. now right. }
  destruct (String.eqb t k) eqn:E.
  - apply String.eqb_eq in E. subst t.
    apply DictFacts.get_none_not_in in Hk. rewrite Hk, app_nil_r.
    apply filter_all. intros r Hr. unfold has_type.
    apply String.eqb_eq. apply (Htype k l r); [now left | exact Hr].
  - apply String.eqb_neq in E. rewrite filter_none; [reflexivity|].
    intros r Hr. unfold has_type. apply String.eqb_neq.
    rewrite (Htype k l r); [congruence | now left | exact Hr].
Qed.

Lemma group_by_type_elements (rs : list SensorReading) (t : string)
  (l : list SensorReading) (r : SensorReading) :
  In (t, l) (group_by_type rs) -> In r l -> sensor_type r = t.
Proof.
  intros Hin Hr. apply group_by_type_in in Hin. destruct Hin as [-> _].
  apply filter_In in Hr. destruct Hr as [_ Hr]. now apply String.eqb_eq.
Qed.

Lemma group_by_type_get_default (rs : list SensorReading) (t : string)
  (f : list SensorReading -> list SensorReading) :
  f [] = [] ->
  match Dict.get t (group_by_type rs) with Some l => f l | None => [] end =
  f (filter (has_type t) rs).
Proof.
  intros Hnil. rewrite group_by_type_get.
  now destruct (filter (has_type t) rs).
Qed.

Lemma clean_group_incl (remove_outliers : bool) (z_threshold : R)
  (l : list SensorReading) (r : SensorReading) :
  In r (clean_group remove_outliers z_threshold l) -> In r l.
Proof. intros H. now apply clean_group_quality in H. Qed.


Lemma clean_data_group (self : SensorDataFusion) (remove_outliers : bool)
  (z_threshold : R) (t : string) :
  filter (has_type t) (clean_data self remove_outliers z_threshold) =
  clean_group remove_outliers z_threshold
    (filter (has_type t) (sensor_readings self)).
Proof.
  unfold clean_data.
  rewrite (@flat_map_groups_filter (clean_group remove_outliers z_threshold)).
  - now apply group_by_type_get_default.
  - apply group_by_type_NoDup.
  - intros k l r Hin Hr. apply clean_group_incl in Hr.
    eapply group_by_type_elements; eauto.
Qed.

(** X3: cleaning is local to a sensor type: the readings of a type in the
    output of [clean_data] are the cleaning of the stored readings of that
    type alone, so they do not depend on the readings of other types. *)
Theorem clean_data_by_type (self self' : SensorDataFusion)
  (remove_outliers : bool) (z_threshold : R) (t : string) :
  filter (has_type t) (clean_data self remove_outliers z_threshold) =
  clean_group remove_outliers z_threshold
    (filter (has_type t) (sensor_readings self)) /\
  (filter (has_type t) (sensor_readings self) =
   filter (has_type t) (sensor_readings self') ->
   filter (has_type t) (clean_data self remove_outliers z_threshold) =
   filter (has_type t) (clean_data self' remove_outliers z_threshold)).
Proof.
  split; [apply clean_data_group|].
  intros H. now rewrite !clean_data_group, H.
Qed.


(** ** Anomaly detection in general *)


(** ** Cleaning in general *)

Lemma py_sum_constant (v : R) (l : list R) :
  Forall (fun x => x = v) l -> py_sum l = INR (length l) * v.
Proof.
  induction 1 as [|x l Hx _ IH].
  - unfold py_sum. simpl. lra.
  - rewrite py_sum_cons, IH, Hx. cbn [length]. rewrite S_INR. lra.
Qed.

Lemma np_mean_constant (v : R) (l : list R) :
  l <> [] -> Forall (fun x => x = v) l -> np_mean l = v.
Proof.
  intros Hne Hall. unfold np_mean. rewrite (py_sum_constant Hall).
  assert (0 < INR (length l)).
  { apply lt_0_INR. destruct l; [congruence | simpl; lia]. }
  field. lra.
Qed.

(** A sample of one repeated value has deviation zero. *)
Lemma np_std_constant (v : R) (l : list R) :
  l <> [] -> Forall (fun x => x = v) l -> np_std l = 0.
Proof.
  intros Hne Hall. unfold np_std. rewrite (np_mean_constant Hne Hall).
  rewrite (@np_mean_constant 0).
  - apply sqrt_0.
  - destruct l; [congruence | discriminate].
  - apply Forall_map. eapply Forall_impl; [|exact Hall].
    simpl. intros x ->. lra.
Qed.

Lemma filter_combine_nan (z_threshold : R) (l : list SensorReading) :
  forall values : list R,
    filter (fun rz : SensorReading * option R => nan_lt (snd rz) z_threshold)
      (combine l (np_abs (map (fun _ : R => None) values))) = [].
Proof.
  induction l as [|r l IH]; intros [|x values]; simpl; auto.
Qed.

(** X5: outlier rejection drops a whole group of equal values.  When the
    readings of a type that pass the quality filter are more than 3 and all
    have the same value, their z-scores are [nan], no comparison with the
    threshold holds, and [clean_data] with [remove_outliers] returns no
    reading of that type. *)
Theorem clean_data_drops_constant_group (self : SensorDataFusion)
  (z_threshold v : R) (t : string) :
  let kept := filter quality_ok (filter (has_type t) (sensor_readings self)) in
  (3 < length kept)%nat ->
  Forall (fun r => value r = v) kept ->
  filter (has_type t) (clean_data self true z_threshold) = [].
Proof.
  intros kept Hlen Hall. rewrite clean_data_group. unfold clean_group.
  destruct (filter (has_type t) (sensor_readings self)) as [|r0 l] eqn:E;
    [reflexivity|].
  fold kept. destruct (Nat.ltb_spec 3 (length kept)) as [_|H]; [|lia].
  simpl andb. cbv iota. unfold zscore.
  rewrite (@np_std_constant v).
  - destruct (Req_dec_T 0 0) as [_|H]; [|congruence].
    now rewrite filter_combine_nan.
  - destruct kept; [simpl in Hlen; lia | discriminate].
  - now apply Forall_map.
Qed.

Lemma filter_flat_map {A B : Type} (p : B -> bool) (f : A -> list B) (l : list A) :
  filter p (flat_map f l) = flat_map (fun x => filter p (f x)) l.
Proof.
  induction l as [|x l IH]; simpl; [reflexivity|].
  now rewrite filter_app, IH.
Qed.

Lemma Permutation_filter {A : Type} (p : A -> bool) (l l' : list A) :
  Permutation l l' -> Permutation (filter p l) (filter p l').
Proof.
  induction 1 as [|x l l' _ IH|x y l|l l' l'' _ IH1 _ IH2]; simpl.
  - constructor.
  - destruct (p x); auto.
  - destruct (p x), (p y); auto. constructor.
  - now transitivity (filter p l').
Qed.

Lemma Permutation_set_append (k : string) (l : list SensorReading)
  (r : SensorReading) (d : Dict.t (list SensorReading)) :
  Dict.get k d = Some l ->
  Permutation (flat_map snd (Dict.set k (l ++ [r]) d)) (flat_map snd d ++ [r]).
Proof.
  induction d as [|[k' l'] d IH]; simpl; [discriminate|].
  destruct (String.eqb k k') eqn:E; simpl.
  - intros [= ->]. rewrite <- !app_assoc. apply Permutation_app_head.
    apply Permutation_app_comm.
  - intros H. rewrite <- app_assoc. apply Permutation_app_head. now apply IH.
Qed.

Lemma flat_map_set_new (k : string) (v : list SensorReading)
  (d : Dict.t (list SensorReading)) :
  Dict.get k d = None ->
  flat_map snd (Dict.set k v d) = flat_map snd d ++ v.
Proof.
  induction d as [|[k' l'] d IH]; simpl.
  - intros _. now rewrite app_nil_r.
  - destruct (String.eqb k k'); [discriminate|]. intros H. simpl.
    now rewrite IH, app_assoc.
Qed.

(** Grouping neither loses nor repeats a reading. *)
Lemma group_by_type_permutation (rs : list SensorReading) :
  forall g, Permutation (flat_map snd (fold_left group_add rs g))
              (flat_map snd g ++ rs).
Proof.
  induction rs as [|r rs IH]; intros g; simpl.
  - now rewrite app_nil_r.
  - rewrite IH. change (r :: rs) with ([r] ++ rs). rewrite app_assoc.
    apply Permutation_app_tail. unfold group_add.
    destruct (Dict.get (sensor_type r) g) as [l|] eqn:E.
    + now apply Permutation_set_append.
    + now rewrite flat_map_set_new.
Qed.

(** X4: without outlier rejection, [clean_data] returns the stored readings
    of quality score at least 0.5, each as often as it is stored
    (regrouped by sensor type). *)
Theorem clean_data_quality_filter (self : SensorDataFusion) (z_threshold : R) :
  Permutation (clean_data self false z_threshold)
    (filter quality_ok (sensor_readings self)).
Proof.
  unfold clean_data.
  assert (Hflat : forall d : Dict.t (list SensorReading),
             flat_map (fun g => clean_group false z_threshold (snd g)) d =
             filter quality_ok (flat_map snd d)).
  { intros d. rewrite filter_flat_map. apply flat_map_ext.
    intros [k l]. simpl. now destruct l. }
  rewrite Hflat. apply Permutation_filter.
  unfold group_by_type. now rewrite group_by_type_permutation.
Qed.

(** ** Fusion in general *)

(** The only exception of an update is a division by zero. *)
Lemma kalman_step_raise (st : R * R) (r : SensorReading) (e : exn) :
  kalman_step st r = Raise e -> e = ZeroDivisionError.
Proof.
  destruct st as [est err]. unfold kalman_step, py_div.
  destruct (Req_dec_T (quality_score r) 0); simpl; [now intros [= <-]|].
  destruct (Req_dec_T _ 0); simpl; [now intros [= <-] | discriminate].
Qed.

Lemma kalman_step_zero_quality (st : R * R) (r : SensorReading) :
  quality_score r = 0 -> kalman_step st r = Raise ZeroDivisionError.
Proof.
  intros H. destruct st as [est err]. unfold kalman_step, py_div.
  destruct (Req_dec_T (quality_score r) 0); [reflexivity | contradiction].
Qed.

Lemma kalman_loop_zero_quality (rs : list SensorReading) (r : SensorReading) :
  In r rs -> quality_score r = 0 ->
  forall st, kalman_loop st rs = Raise ZeroDivisionError.
Proof.
  induction rs as [|r0 rs IH]; intros Hin Hq st; [destruct Hin|].
  simpl. destruct (kalman_step st r0) as [st'|e] eqn:E; simpl.
  - destruct Hin as [->|Hin]; [|now apply IH].
    rewrite kalman_step_zero_quality in E by assumption. discriminate.
  - now rewrite (kalman_step_raise _ _ E).
Qed.

(** One update from a positive error on a reading of positive quality
    succeeds and leaves a positive error. *)
Lemma kalman_step_ok (est err : R) (r : SensorReading) :
  0 < err -> 0 < quality_score r ->
  exists est' err', kalman_step (est, err) r = Ok (est', err') /\ 0 < err'.
Proof.
  intros Herr Hq. unfold kalman_step.
  assert (Hn : 0 < 1 / quality_score r).
  { apply Rdiv_lt_0_compat; lra. }
  rewrite py_div_ok by lra. simpl.
  rewrite py_div_ok by lra. simpl.
  set (n := 1 / quality_score r) in *. set (p := err + 0.1).
  assert (Hp : 0 < p) by (unfold p; lra).
  assert (Hk : 0 < p / (p + n) < 1).
  { split.
    - apply Rdiv_lt_0_compat; lra.
    - apply Rmult_lt_reg_r with (p + n); [lra|].
      unfold Rdiv. rewrite Rmult_assoc, Rinv_l; lra. }
  eexists. eexists. split; [reflexivity|]. nra.
Qed.

Lemma kalman_loop_ok (rs : list SensorReading) :
  Forall (fun r => 0 < quality_score r) rs ->
  forall est err,
    0 < err ->
    exists est' err', kalman_loop (est, err) rs = Ok (est', err') /\ 0 < err'.
Proof.
  induction 1 as [|r rs Hq _ IH]; intros est err Herr.
  - exists est, err. simpl. auto.
  - destruct (@kalman_step_ok est err r Herr Hq) as (est1 & err1 & Hstep & Herr1).
    cbn [kalman_loop]. rewrite Hstep. cbn [bind]. now apply IH.
Qed.

Lemma kalman_loop_raise (rs : list SensorReading) :
  forall st e, kalman_loop st rs = Raise e -> e = ZeroDivisionError.
Proof.
  induction rs as [|r rs IH]; intros st e; simpl; [discriminate|].
  destruct (kalman_step st r) as [st'|e1] eqn:Es; simpl.
  - apply IH.
  - intros [= <-]. now apply kalman_step_raise in Es.
Qed.

(** X7: the recursive estimator fails in one way only, by a division by
    zero, and it returns whenever every reading after the first has a
    positive quality score (the quality score of the first reading is not
    used). *)
Theorem kalman_filter_fusion_returns (first : SensorReading)
  (rest : list SensorReading) :
  (forall e, _kalman_filter_fusion (first :: rest) = Raise e ->
             e = ZeroDivisionError) /\
  (Forall (fun r => 0 < quality_score r) rest ->
   exists estimate, _kalman_filter_fusion (first :: rest) = Ok estimate).
Proof.
  unfold _kalman_filter_fusion. split.
  - intros e. destruct (kalman_loop (value first, 1) rest) as [st|e'] eqn:E;
      simpl; [discriminate|].
    intros [= <-]. now apply kalman_loop_raise in E.
  - intros Hq.
    destruct (@kalman_loop_ok rest Hq (value first) 1) as (est & err & Hloop & _);
      [lra|].
    rewrite Hloop. simpl. eauto.
Qed.

Lemma fuse_groups_kalman_raise (groups : Dict.t (list SensorReading)) :
  forall acc e,
    fuse_groups "kalman_filter" groups acc = Raise e -> e = ZeroDivisionError.
Proof.
  induction groups as [|[k l] groups IH]; intros acc e; simpl; [discriminate|].
  destruct (fuse_type "kalman_filter" l) as [v|e'] eqn:E; simpl.
  - apply IH.
  - intros [= <-]. unfold fuse_type in E. simpl in E.
    destruct l as [|r0 l]; [discriminate|]. simpl in E.
    destruct (kalman_loop (value r0, 1) l) as [st|e''] eqn:El; [discriminate|].
    simpl in E. injection E as <-.
    clear - El. revert El. generalize (value r0, 1). 
    induction l as [|r l IHl]; intros st; simpl; [discriminate|].
    destruct (kalman_step st r) as [st'|e1] eqn:Es; simpl.
    + apply IHl.
    + intros [= <-]. now apply kalman_step_raise in Es.
Qed.

Lemma fuse_groups_kalman_zero (groups : Dict.t (list SensorReading))
  (t : string) (first r : SensorReading) (rest : list SensorReading) :
  In (t, first :: rest) groups -> In r rest -> quality_score r = 0 ->
  forall acc, fuse_groups "kalman_filter" groups acc = Raise ZeroDivisionError.
Proof.
  intros Hin Hr Hq.
  induction groups as [|[k l] groups IH]; intros acc; [destruct Hin|].
  simpl. destruct (fuse_type "kalman_filter" l) as [v|e] eqn:E; simpl.
  - destruct Hin as [[= -> ->]|Hin]; [|now apply IH].
    unfold fuse_type in E. simpl in E.
    rewrite (kalman_loop_zero_quality _ _ Hr Hq) in E. discriminate.
  - f_equal.
    apply (@fuse_groups_kalman_raise [(k, l)] acc e). simpl. now rewrite E.
Qed.

(** X8: with the method ['kalman_filter'], a reading of quality score 0
    that is not the first of its sensor type makes the whole call raise
    [ZeroDivisionError]: no fused value is returned for any type. *)
Theorem multi_sensor_fusion_kalman_zero_quality (readings : list SensorReading)
  (t : string) (first r : SensorReading) (rest : list SensorReading) :
  filter (has_type t) readings = first :: rest ->
  In r rest -> quality_score r = 0 ->
  multi_sensor_fusion readings "kalman_filter" = Raise ZeroDivisionError.
Proof.
  intros Hgroup Hr Hq. unfold multi_sensor_fusion.
  destruct readings as [|r0 rs]; [discriminate|].
  apply (@fuse_groups_kalman_zero _ t first r rest); auto.
  apply DictFacts.get_in. rewrite group_by_type_get, Hgroup. reflexivity.
Qed.

(** *** Median and fallback *)

Lemma insert_sorted_comm (x y : R) (l : list R) :
  insert_sorted x (insert_sorted y l) = insert_sorted y (insert_sorted x l).
Proof.
  induction l as [|z l IH]; simpl.
  - destruct (Rle_dec x y), (Rle_dec y x); try reflexivity; try lra.
    now replace y with x by lra.
  - destruct (Rle_dec y z), (Rle_dec x z); simpl;
      repeat (destruct (Rle_dec _ _); simpl); try lra; try reflexivity.
    + now replace y with x by lra.
    + now rewrite IH.
Qed.

Lemma sort_values_permutation (l l' : list R) :
  Permutation l l' -> sort_values l = sort_values l'.
Proof.
  unfold sort_values.
  induction 1 as [|x l l' _ IH|x y l|l l' l'' _ IH1 _ IH2]; simpl.
  - reflexivity.
  - now rewrite IH.
  - apply insert_sorted_comm.
  - congruence.
Qed.

Lemma np_median_permutation (l l' : list R) :
  Permutation l l' -> np_median l = np_median l'.
Proof.
  intros H. unfold np_median. now rewrite (sort_values_permutation H).
Qed.

(** A method whose per-group value cannot raise gives one entry per
    sensor type present. *)
Lemma fuse_groups_pure (method : string) (f : list SensorReading -> R)
  (groups : Dict.t (list SensorReading)) :
  (forall l, fuse_type method l = Ok (f l)) ->
  NoDup (Dict.keys groups) ->
  forall acc, exists fused,
    fuse_groups method groups acc = Ok fused /\
    forall t, Dict.get t fused =
              match Dict.get t groups with
              | Some l => Some (f l)
              | None => Dict.get t acc
              end.
Proof.
  intros Hf. induction groups as [|[k l] groups IH]; intros Hnd acc.
  - exists acc. split; reflexivity.
  - inversion Hnd as [|? ? Hk Hnd']; subst.
    destruct (IH Hnd' (Dict.set k (f l) acc)) as [fused [Hrun Hget]].
    exists fused. split.
    + cbn [fuse_groups]. rewrite Hf. exact Hrun.
    + intros t. rewrite Hget. simpl.
      destruct (String.eqb t k) eqn:E.
      * apply String.eqb_eq in E. subst t.
        apply DictFacts.get_none_not_in in Hk. rewrite Hk.
        apply DictFacts.get_set_same.
      * apply String.eqb_neq in E.
        destruct (Dict.get t groups); auto.
        apply DictFacts.get_set_other. congruence.
Qed.

Lemma multi_sensor_fusion_pure (method : string) (f : list SensorReading -> R)
  (readings : list SensorReading) :
  (forall l, fuse_type method l = Ok (f l)) ->
  exists fused,
    multi_sensor_fusion readings method = Ok fused /\
    forall t, Dict.get t fused =
              match filter (has_type t) readings with
              | [] => None
              | l => Some (f l)
              end.
Proof.
  intros Hf. destruct readings as [|r rs].
  - exists Dict.empty. split; reflexivity.
  - unfold multi_sensor_fusion.
    destruct (@fuse_groups_pure method f (group_by_type (r :: rs)) Hf
                (group_by_type_NoDup _) Dict.empty) as [fused [Hrun Hget]].
    exists fused. split; [exact Hrun|]. intros t.
    rewrite Hget, group_by_type_get.
    now destruct (filter (has_type t) (r :: rs)).
Qed.

(** X9: a method name other than ['weighted_average'], ['kalman_filter']
    and ['median'] is not an error: every sensor type present gets the
    arithmetic mean of its values, and an absent type gets no entry. *)
Theorem multi_sensor_fusion_unknown_method (readings : list SensorReading)
  (method : string) :
  method <> "weighted_average" -> method <> "kalman_filter" ->
  method <> "median" ->
  exists fused,
    multi_sensor_fusion readings method = Ok fused /\
    forall t, Dict.get t fused =
              match filter (has_type t) readings with
              | [] => None
              | l => Some (np_mean (map value l))
              end.
Proof.
  intros H1 H2 H3.
  apply (@multi_sensor_fusion_pure method (fun l => np_mean (map value l))).
  intros l. unfold fuse_type.
  apply String.eqb_neq in H1, H2, H3. now rewrite H1, H2, H3.
Qed.

(** X10: median fusion does not depend on the order of the readings: two
    inputs that are permutations of each other give the same fused value
    for every sensor type. *)
Theorem multi_sensor_fusion_median_order (readings readings' : list SensorReading) :
  Permutation readings readings' ->
  exists fused fused',
    multi_sensor_fusion readings "median" = Ok fused /\
    multi_sensor_fusion readings' "median" = Ok fused' /\
    forall t, Dict.get t fused = Dict.get t fused'.
Proof.
  intros Hperm.
  destruct (@multi_sensor_fusion_pure "median"
              (fun l => np_median (map value l)) readings) as [fused [Hrun Hget]];
    [reflexivity|].
  destruct (@multi_sensor_fusion_pure "median"
              (fun l => np_median (map value l)) readings') as [fused' [Hrun' Hget']];
    [reflexivity|].
  exists fused, fused'. repeat split; auto. intros t.
  rewrite Hget, Hget'.
  assert (Hp : Permutation (filter (has_type t) readings)
                 (filter (has_type t) readings'))
    by now apply Permutation_filter.
  destruct (filter (has_type t) readings) as [|x l] eqn:E1,
           (filter (has_type t) readings') as [|x' l'] eqn:E2.
  - reflexivity.
  - apply Permutation_nil in Hp. discriminate.
  - symmetry in Hp. apply Permutation_nil in Hp. discriminate.
  - f_equal. apply np_median_permutation. now apply Permutation_map.
Qed.

Lemma clean_data_drops_constant_group_witness :
  filter (has_type "humidity") (clean_data constant_engine true 3) = [].
Proof.
  apply (@clean_data_drops_constant_group constant_engine 3 40 "humidity").
  - simpl. unfold quality_ok. simpl.
    destruct (Rge_dec 1 0.5); [simpl; lia | lra].
  - simpl. unfold quality_ok. simpl.
    destruct (Rge_dec 1 0.5); [repeat constructor | lra].
Defined.

Lemma multi_sensor_fusion_kalman_zero_quality_witness :
  multi_sensor_fusion
    (sample_reading "humidity" 50 1 :: zero_quality_sample) "kalman_filter"
  = Raise ZeroDivisionError.
Proof.
  apply (@multi_sensor_fusion_kalman_zero_quality
           (sample_reading "humidity" 50 1 :: zero_quality_sample)
           "temperature" (sample_reading "temperature" 20 1)
           (sample_reading "temperature" 21 0) [sample_reading "temperature" 21 0]).
  - reflexivity.
  - now left.
  - reflexivity.
Defined.

Lemma multi_sensor_fusion_unknown_method_witness :
  exists fused,
    multi_sensor_fusion median_sample "mean" = Ok fused /\
    forall t, Dict.get t fused =
              match filter (has_type t) median_sample with
              | [] => None
              | l => Some (np_mean (map value l))
              end.
Proof.
  apply (@multi_sensor_fusion_unknown_method median_sample "mean");
    discriminate.
Defined.

Lemma multi_sensor_fusion_median_order_witness :
  exists fused fused',
    multi_sensor_fusion median_sample "median" = Ok fused /\
    multi_sensor_fusion (rev median_sample) "median" = Ok fused' /\
    forall t, Dict.get t fused = Dict.get t fused'.
Proof.
  apply (@multi_sensor_fusion_median_order median_sample (rev median_sample)).
  apply Permutation_rev.
Defined.

(** The sample of the specification for the median: 2.5. *)
Example np_median_sample : np_median [1; 2; 3; 100] = 2.5.
Proof.
  unfold np_median, sort_values. simpl.
  repeat (destruct (Rle_dec _ _); simpl; try lra).
Qed.

(** ** The streaming service in general *)

Lemma in_set_same {V : Type} (k : string) (v : V) (d : Dict.t V) :
  In (k, v) (Dict.set k v d).
Proof.
  induction d as [|[k' v'] d IH]; simpl; [now left|].
  destruct (String.eqb k k'); simpl; auto.
Qed.

Lemma in_set_inv {V : Type} (k : string) (v : V) (d : Dict.t V) (b : string * V) :
  In b (Dict.set k v d) -> b = (k, v) \/ In b d.
Proof.
  induction d as [|[k' v'] d IH]; simpl.
  - intros [<-|[]]. now left.
  - destruct (String.eqb k k'); simpl.
    + intros [<-|H]; auto.
    + intros [<-|H]; auto. destruct (IH H); auto.
Qed.

(** With room for one reading, the reading pushed is in the buffer of its
    type. *)
Lemma buffer_push_in (size : Z) (buffer : Dict.t (list SensorReading))
  (r : SensorReading) :
  (1 <= size)%Z ->
  exists l, In (sensor_type r, l) (buffer_push size buffer r) /\ In r l.
Proof.
  intros Hsize. unfold buffer_push.
  set (old := Dict.get_default (sensor_type r) [] buffer).
  destruct (Z.ltb_spec size (Z.of_nat (length (old ++ [r])))) as [Hlt|Hge].
  - exists (tl (old ++ [r])). split; [apply in_set_same|].
    rewrite length_app in Hlt. simpl in Hlt.
    destruct old as [|x old]; [simpl in Hlt; lia|].
    simpl. apply in_or_app. right. now left.
  - exists (old ++ [r]). split; [apply in_set_same|].
    apply in_or_app. right. now left.
Qed.

(** X11: on a service of capacity at least 1, streaming a reading that is
    not older than one hour returns a fused value for its sensor type. *)
Theorem add_streaming_reading_fresh (self : RealTimeFusion) (now : Z)
  (reading : SensorReading) :
  (1 <= buffer_size self)%Z ->
  (now - timestamp reading <= time_window)%Z ->
  exists self' fused v,
    add_streaming_reading self now reading = Ok (self', fused) /\
    Dict.get (sensor_type reading) fused = Some v.
Proof.
  intros Hsize Hrecent. unfold add_streaming_reading.
  remember (flat_map _ (buffer_push _ _ _)) as recent eqn:E.
  assert (Hin : In reading recent).
  { destruct (@buffer_push_in (buffer_size self) (reading_buffer self) reading Hsize)
      as (l & Hl & Hr).
    rewrite E. apply in_flat_map. exists (sensor_type reading, l).
    split; [exact Hl|]. simpl. apply filter_In. split; [exact Hr|].
    unfold is_recent. now apply Z.leb_le. }
  clear E.
  destruct (multi_sensor_fusion_total recent) as [fused [Hrun Hget]].
  assert (Hgroup : In reading (filter (has_type (sensor_type reading)) recent)).
  { apply filter_In. split; [exact Hin|]. unfold has_type. apply String.eqb_refl. }
  specialize (Hget (sensor_type reading)).
  destruct (filter (has_type (sensor_type reading)) recent) as [|y l];
    [destruct Hgroup|].
  destruct recent as [|x recent]; [destruct Hin|].
  rewrite Hrun. cbn [bind].
  eexists. exists fused. eexists. split; [reflexivity | exact Hget].
Qed.

Lemma add_streaming_reading_fresh_witness :
  exists self' fused v,
    add_streaming_reading (RealTimeFusion_init 1 1000) 60
      (sample_reading "humidity" 40 1) = Ok (self', fused) /\
    Dict.get "humidity" fused = Some v.
Proof.
  apply (@add_streaming_reading_fresh (RealTimeFusion_init 1 1000) 60
           (sample_reading "humidity" 40 1)).
  - simpl. lia.
  - unfold time_window. simpl. lia.
Defined.

Lemma buffer_push_no_room (size : Z) (buffer : Dict.t (list SensorReading))
  (r : SensorReading) :
  (size <= 0)%Z ->
  (forall b, In b buffer -> snd b = []) ->
  forall b, In b (buffer_push size buffer r) -> snd b = [].
Proof.
  intros Hsize Hempty b. unfold buffer_push.
  assert (Hold : Dict.get_default (sensor_type r) [] buffer = []).
  { unfold Dict.get_default.
    destruct (Dict.get (sensor_type r) buffer) as [l|] eqn:E; [|reflexivity].
    apply DictFacts.get_in in E. apply (Hempty _ E). }
  rewrite Hold. simpl.
  destruct (Z.ltb_spec size 1); [|lia].
  intros Hb. apply in_set_inv in Hb. destruct Hb as [->|Hb]; auto.
Qed.

Lemma no_recent_readings (now : Z) (buffer : Dict.t (list SensorReading)) :
  (forall b, In b buffer -> snd b = []) ->
  flat_map (fun b => filter (is_recent now) (snd b)) buffer = [].
Proof.
  induction buffer as [|b buffer IH]; intros H; simpl; [reflexivity|].
  rewrite (H b) by (now left). simpl. apply IH. intros b' Hb'. apply H. now right.
Qed.

(** X12: a service created with a capacity of 0 (or less) keeps nothing:
    after any sequence of calls every buffer is empty, and the next call
    returns the empty map. *)
Theorem streaming_no_capacity (fid size : Z) (calls : list (Z * SensorReading)) :
  (size <= 0)%Z ->
  exists st,
    stream (RealTimeFusion_init fid size) calls = Ok st /\
    (forall t, Dict.get_default t [] (reading_buffer st) = []) /\
    forall now reading, exists st',
      add_streaming_reading st now reading = Ok (st', Dict.empty).
Proof.
  intros Hsize.
  assert (Hstep : forall self now reading,
             (buffer_size self <= 0)%Z ->
             (forall b, In b (reading_buffer self) -> snd b = []) ->
             exists st',
               add_streaming_reading self now reading = Ok (st', Dict.empty) /\
               buffer_size st' = buffer_size self /\
               forall b, In b (reading_buffer st') -> snd b = []).
  { intros self now reading Hs Hempty.
    pose proof (@buffer_push_no_room _ _ reading Hs Hempty) as Hpush.
    unfold add_streaming_reading.
    rewrite (no_recent_readings now _ Hpush).
    eexists. split; [reflexivity|]. simpl. auto. }
  assert (Hrun : forall calls self,
             (buffer_size self <= 0)%Z ->
             (forall b, In b (reading_buffer self) -> snd b = []) ->
             exists st,
               stream self calls = Ok st /\
               (buffer_size st <= 0)%Z /\
               forall b, In b (reading_buffer st) -> snd b = []).
  { clear calls. induction calls as [|[now r] calls IH]; intros self Hs Hempty.
    - exists self. simpl. auto.
    - destruct (Hstep self now r Hs Hempty) as (st' & Hcall & Hsz & Hempty').
      cbn [stream]. rewrite Hcall. cbn [bind fst].
      apply IH; [lia | exact Hempty']. }
  destruct (Hrun calls (RealTimeFusion_init fid size)) as (st & Hst & Hsz & Hempty);
    [exact Hsize | intros b [] |].
  exists st. split; [exact Hst|]. split.
  - intros t. unfold Dict.get_default.
    destruct (Dict.get t (reading_buffer st)) as [l|] eqn:E; [|reflexivity].
    apply DictFacts.get_in in E. apply (Hempty _ E).
  - intros now reading.
    destruct (Hstep st now reading Hsz Hempty) as (st' & Hcall & _).
    eauto.
Qed.

Lemma streaming_no_capacity_witness :
  exists st,
    stream (RealTimeFusion_init 1 0) stream_calls = Ok st /\
    (forall t, Dict.get_default t [] (reading_buffer st) = []) /\
    forall now reading, exists st',
      add_streaming_reading st now reading = Ok (st', Dict.empty).
Proof.
  apply (@streaming_no_capacity 1 0 stream_calls). lia.
Defined.

(** *** Buffer status *)

Lemma latest_from_spec (l : list SensorReading) :
  forall best,
    In (latest_from best l) (best :: l) /\
    forall r, In r (best :: l) ->
              (timestamp r <= timestamp (latest_from best l))%Z.
Proof.
  induction l as [|x l IH]; intros best.
  - simpl. split; [now left|]. intros r [<-|[]]. lia.
  - cbn [latest_from].
    destruct (Z.ltb_spec (timestamp best) (timestamp x)) as [Hlt|Hge].
    + destruct (IH x) as [Hin Hmax]. split.
      * right. exact Hin.
      * intros r [<-|Hr]; [|now apply Hmax].
        specialize (Hmax x (or_introl eq_refl)). lia.
    + destruct (IH best) as [Hin Hmax]. split.
      * destruct Hin as [Hin|Hin]; [now left | right; now right].
      * intros r [<-|[<-|Hr]].
        -- apply Hmax. now left.
        -- specialize (Hmax best (or_introl eq_refl)). lia.
        -- apply Hmax. now right.
Qed.

Lemma get_buffer_status_get (d : Dict.t (list SensorReading)) :
  NoDup (Dict.keys d) ->
  forall (acc : Dict.t BufferStatus) (t : string),
    Dict.get t
      (fold_left
         (fun status b =>
            match buffer_status (snd b) with
            | Some s => Dict.set (fst b) s status
            | None => status
            end) d acc) =
    match Dict.get t d with
    | Some l =>
        match buffer_status l with
        | Some s => Some s
        | None => Dict.get t acc
        end
    | None => Dict.get t acc
    end.
Proof.
  induction d as [|[k l] d IH]; intros Hnd acc t; [reflexivity|].
  inversion Hnd as [|? ? Hk Hnd']; subst.
  apply DictFacts.get_none_not_in in Hk.
  cbn [fold_left fst snd]. rewrite IH by assumption.
  simpl (Dict.get t ((k, l) :: d)).
  destruct (String.eqb t k) eqn:E.
  - apply String.eqb_eq in E. subst t. rewrite Hk.
    destruct (buffer_status l); [apply DictFacts.get_set_same | reflexivity].
  - apply String.eqb_neq in E.
    assert (Hacc : Dict.get t
                     match buffer_status l with
                     | Some s => Dict.set k s acc
                     | None => acc
                     end = Dict.get t acc).
    { destruct (buffer_status l); [|reflexivity].
      apply DictFacts.get_set_other. congruence. }
    now rewrite Hacc.
Qed.

Lemma buffer_push_NoDup (size : Z) (buffer : Dict.t (list SensorReading))
  (r : SensorReading) :
  NoDup (Dict.keys buffer) -> NoDup (Dict.keys (buffer_push size buffer r)).
Proof.
  intros H. unfold buffer_push.
  destruct (_ <? _)%Z; now apply DictFacts.NoDup_keys_set.
Qed.

Lemma stream_NoDup (calls : list (Z * SensorReading)) :
  forall self st,
    NoDup (Dict.keys (reading_buffer self)) ->
    stream self calls = Ok st ->
    NoDup (Dict.keys (reading_buffer st)).
Proof.
  induction calls as [|[now r] calls IH]; intros self st Hnd; simpl.
  - now intros [= <-].
  - destruct (add_streaming_reading_ok self now r) as [fused ->]. simpl.
    apply IH. simpl. now apply buffer_push_NoDup.
Qed.

(** X13: the status of a service after any sequence of calls.  A sensor
    type has an entry iff its buffer is not empty; the entry reports the
    number of buffered readings, which is at most the capacity, and the
    timestamp and value of a buffered reading whose timestamp no buffered
    reading of the type exceeds. *)
Theorem get_buffer_status_after_stream (fid size : Z)
  (calls : list (Z * SensorReading)) (st : RealTimeFusion) :
  (0 <= size)%Z ->
  stream (RealTimeFusion_init fid size) calls = Ok st ->
  forall t,
    let buf := Dict.get_default t [] (reading_buffer st) in
    match Dict.get t (get_buffer_status st) with
    | None => buf = []
    | Some s =>
        status_buffer_size s = length buf /\
        (0 < status_buffer_size s)%nat /\
        (Z.of_nat (status_buffer_size s) <= size)%Z /\
        (exists r, In r buf /\ timestamp r = latest_timestamp s /\
                   value r = latest_value s) /\
        forall r, In r buf -> (timestamp r <= latest_timestamp s)%Z
    end.
Proof.
  intros Hsize Hrun t buf.
  assert (Hnd : NoDup (Dict.keys (reading_buffer st))).
  { apply (@stream_NoDup calls (RealTimeFusion_init fid size) st); [constructor | exact Hrun]. }
  assert (Hlen : (Z.of_nat (length buf) <= size)%Z).
  { destruct (@stream_buffers calls (RealTimeFusion_init fid size) [] Hsize)
      as (st0 & Hrun0 & _ & Hbuf); [intros t0; reflexivity|].
    rewrite Hrun in Hrun0. injection Hrun0 as <-.
    unfold buf. rewrite Hbuf, lastn_length. simpl buffer_size. lia. }
  unfold get_buffer_status. rewrite get_buffer_status_get by assumption.
  unfold buf, Dict.get_default in *. cbn [Dict.get Dict.empty].
  destruct (Dict.get t (reading_buffer st)) as [l|]; [|reflexivity].
  destruct l as [|first rest]; [reflexivity|].
  cbn [buffer_status]. cbv zeta. cbn [status_buffer_size latest_timestamp latest_value].
  destruct (latest_from_spec rest first) as [Hin Hmax].
  repeat split.
  - simpl. lia.
  - exact Hlen.
  - exists (latest_from first rest). auto.
  - exact Hmax.
Qed.

Lemma get_buffer_status_after_stream_witness :
  exists st,
    stream (RealTimeFusion_init 1 2) stream_calls = Ok st /\
    forall t,
      let buf := Dict.get_default t [] (reading_buffer st) in
      match Dict.get t (get_buffer_status st) with
      | None => buf = []
      | Some s =>
          status_buffer_size s = length buf /\
          (0 < status_buffer_size s)%nat /\
          (Z.of_nat (status_buffer_size s) <= 2)%Z /\
          (exists r, In r buf /\ timestamp r = latest_timestamp s /\
                     value r = latest_value s) /\
          forall r, In r buf -> (timestamp r <= latest_timestamp s)%Z
      end.
Proof.
  destruct (@stream_buffers stream_calls (RealTimeFusion_init 1 2) [])
    as (st & Hrun & _); [simpl; lia | intros t; reflexivity |].
  exists st. split; [exact Hrun|].
  apply (@get_buffer_status_after_stream 1 2 stream_calls st); [lia | exact Hrun].
Defined.

(** ** Spatial fusion in general *)

Section SpatialEdges.

Variable can_allocate : nat -> bool.
Variable rbf : Type.
Variable Rbf : list R -> list R -> list R -> list R -> result rbf.
Variable Rbf_call : rbf -> grid -> grid -> result grid.

Lemma fuse_spatial_group_zero_cell (l : list SensorReading) :
  (3 <= length l)%nat ->
  fuse_spatial_group can_allocate Rbf Rbf_call 0 l = Raise ZeroDivisionError.
Proof.
  intros H. unfold fuse_spatial_group.
  destruct (Nat.ltb_spec (length l) 3); [lia|].
  now rewrite build_grid_zero_cell.
Qed.

Lemma fuse_spatial_groups_zero_cell (groups : Dict.t (list SensorReading))
  (t : string) (l : list SensorReading) :
  In (t, l) groups -> (3 <= length l)%nat ->
  forall acc,
    fuse_spatial_groups can_allocate Rbf Rbf_call 0 groups acc
    = Raise ZeroDivisionError.
Proof.
  intros Hin Hlen. induction groups as [|[k l0] groups IH]; intros acc;
    [destruct Hin|].
  cbn [fuse_spatial_groups].
  destruct (Nat.ltb_spec (length l0) 3) as [Hshort|Hlong].
  - rewrite fuse_spatial_group_short by assumption. cbn [bind].
    destruct Hin as [[= -> ->]|Hin]; [lia | now apply IH].
  - now rewrite fuse_spatial_group_zero_cell.
Qed.

Lemma fuse_spatial_groups_short (grid_size : R)
  (groups : Dict.t (list SensorReading)) :
  (forall t l, In (t, l) groups -> (length l < 3)%nat) ->
  forall acc,
    fuse_spatial_groups can_allocate Rbf Rbf_call grid_size groups acc = Ok acc.
Proof.
  induction groups as [|[k l] groups IH]; intros Hshort acc; [reflexivity|].
  cbn [fuse_spatial_groups].
  rewrite fuse_spatial_group_short by (apply (Hshort k); now left).
  cbn [bind]. apply IH. intros t l' Hin. apply (Hshort t). now right.
Qed.

(** X14: a cell size of 0 is not caught: when some sensor type has at
    least 3 located readings, [fuse_spatial_data] with [grid_size = 0]
    raises (the grid is built outside the [try] block) and returns no grid
    for any type. *)
Theorem fuse_spatial_data_zero_cell (readings : list SensorReading) (t : string) :
  (3 <= length (filter (has_type t) (filter is_located readings)))%nat ->
  exists e, fuse_spatial_data can_allocate Rbf Rbf_call readings 0 = Raise e.
Proof.
  intros Hlen. exists ZeroDivisionError. unfold fuse_spatial_data.
  destruct readings as [|r rs]; [simpl in Hlen; lia|].
  apply (@fuse_spatial_groups_zero_cell _ t
           (filter (has_type t) (filter is_located (r :: rs)))); [|exact Hlen].
  apply DictFacts.get_in. rewrite group_located_get.
  destruct (filter (has_type t) (filter is_located (r :: rs)));
    [simpl in Hlen; lia | reflexivity].
Qed.

(** X15: when no sensor type has 3 located readings (in particular when no
    reading has a location), [fuse_spatial_data] returns the empty map,
    whatever the cell size and without calling the interpolation. *)
Theorem fuse_spatial_data_too_few (readings : list SensorReading) (grid_size : R) :
  (forall t, (length (filter (has_type t) (filter is_located readings)) < 3)%nat) ->
  fuse_spatial_data can_allocate Rbf Rbf_call readings grid_size = Ok Dict.empty.
Proof.
  intros Hshort. unfold fuse_spatial_data.
  destruct readings as [|r rs]; [reflexivity|].
  apply fuse_spatial_groups_short. intros t l Hin.
  apply group_located_in in Hin. subst l. apply Hshort.
Qed.

End SpatialEdges.

Lemma fuse_spatial_data_zero_cell_witness :
  exists e,
    fuse_spatial_data roomy failing_Rbf constant_Rbf_call spatial_sample 0
    = Raise e.
Proof.
  apply (@fuse_spatial_data_zero_cell roomy unit failing_Rbf constant_Rbf_call
           spatial_sample "temperature").
  simpl. lia.
Defined.

Lemma fuse_spatial_data_too_few_witness :
  fuse_spatial_data roomy failing_Rbf constant_Rbf_call anomaly_sample 10
  = Ok Dict.empty.
Proof.
  apply (@fuse_spatial_data_too_few roomy unit failing_Rbf constant_Rbf_call
           anomaly_sample 10).
  intros t. simpl. lia.
Defined.

(** ** The fusion report in general *)

Lemma per_type_get {A : Type} (f : list SensorReading -> A)
  (groups : Dict.t (list SensorReading)) :
  NoDup (Dict.keys groups) ->
  forall (acc : Dict.t A) (t : string),
    Dict.get t (fold_left (fun d g => Dict.set (fst g) (f (snd g)) d) groups acc) =
    match Dict.get t groups with
    | Some l => Some (f l)
    | None => Dict.get t acc
    end.
Proof.
  induction groups as [|[k l] groups IH]; intros Hnd acc t; [reflexivity|].
  inversion Hnd as [|? ? Hk Hnd']; subst.
  apply DictFacts.get_none_not_in in Hk.
  cbn [fold_left fst snd]. rewrite IH by assumption.
  simpl (Dict.get t ((k, l) :: groups)).
  destruct (String.eqb t k) eqn:E.
  - apply String.eqb_eq in E. subst t. rewrite Hk. apply DictFacts.get_set_same.
  - apply String.eqb_neq in E. destruct (Dict.get t groups); [reflexivity|].
    apply DictFacts.get_set_other. congruence.
Qed.

Lemma per_type_group {A : Type} (f : list SensorReading -> A)
  (readings : list SensorReading) (t : string) :
  Dict.get t (per_type f (group_by_type readings)) =
  match filter (has_type t) readings with
  | [] => None
  | l => Some (f l)
  end.
Proof.
  unfold per_type. rewrite per_type_get by apply group_by_type_NoDup.
  rewrite group_by_type_get. now destruct (filter (has_type t) readings).
Qed.

Lemma fold_left_Rmin_le (l : list R) :
  forall a, fold_left Rmin l a <= a /\
            forall x, In x l -> fold_left Rmin l a <= x.
Proof.
  induction l as [|y l IH]; intros a; simpl.
  - split; [lra | intros x []].
  - destruct (IH (Rmin a y)) as [H1 H2].
    pose proof (Rmin_l a y). pose proof (Rmin_r a y). split; [lra|].
    intros x [<-|Hx]; [lra | now apply H2].
Qed.

Lemma fold_left_Rmax_ge (l : list R) :
  forall a, a <= fold_left Rmax l a /\
            forall x, In x l -> x <= fold_left Rmax l a.
Proof.
  induction l as [|y l IH]; intros a; simpl.
  - split; [lra | intros x []].
  - destruct (IH (Rmax a y)) as [H1 H2].
    pose proof (Rmax_l a y). pose proof (Rmax_r a y). split; [lra|].
    intros x [<-|Hx]; [lra | now apply H2].
Qed.

Lemma np_min_max_bounds (l : list R) (x : R) :
  In x l -> np_min l <= x <= np_max l.
Proof.
  destruct l as [|a l]; [intros []|]. unfold np_min, np_max.
  destruct (fold_left_Rmin_le l a) as [H1 H2].
  destruct (fold_left_Rmax_ge l a) as [H3 H4].
  intros [<-|Hx]; split; auto.
Qed.

Lemma fold_left_Zmin_le (l : list Z) :
  forall a, (fold_left Z.min l a <= a)%Z.
Proof.
  induction l as [|y l IH]; intros a; simpl; [lia|].
  specialize (IH (Z.min a y)). lia.
Qed.

Lemma fold_left_Zmax_ge (l : list Z) :
  forall a, (a <= fold_left Z.max l a)%Z.
Proof.
  induction l as [|y l IH]; intros a; simpl; [lia|].
  specialize (IH (Z.max a y)). lia.
Qed.

Lemma min_time_le_max_time (l : list Z) : (min_time l <= max_time l)%Z.
Proof.
  destruct l as [|a l]; simpl; [lia|].
  pose proof (fold_left_Zmin_le l a). pose proof (fold_left_Zmax_ge l a). lia.
Qed.

(** X16: the statistics of the report.  For a sensor type present in the
    readings the report returns an entry whose count is the number of
    readings of that type, whose min and max bound every value of the
    type, whose deviation is not negative and whose unit is the unit of
    the first reading of the type; the total is the number of readings, and
    a type that is absent has no entry. *)
Theorem fusion_report_statistics (self : SensorDataFusion) (now : Z)
  (readings : list SensorReading) :
  exists report,
    generate_fusion_report self now readings = Ok report /\
    total_readings report = length readings /\
    forall t,
      match filter (has_type t) readings with
      | [] => Dict.get t (sensor_types report) = None
      | first :: rest =>
          exists s,
            Dict.get t (sensor_types report) = Some s /\
            stat_count s = S (length rest) /\
            (forall r, In r (first :: rest) ->
                       stat_min s <= value r <= stat_max s) /\
            0 <= stat_std s /\
            stat_unit s = Some (unit_ first)
      end.
Proof.
  destruct readings as [|r rs].
  - eexists. split; [reflexivity|]. split; [reflexivity|]. intros t. reflexivity.
  - destruct (multi_sensor_fusion_total (r :: rs)) as [fused [Hf _]].
    unfold generate_fusion_report. rewrite Hf. cbn [bind].
    eexists. split; [reflexivity|]. split; [reflexivity|]. intros t.
    cbn [sensor_types]. rewrite per_type_group.
    destruct (filter (has_type t) (r :: rs)) as [|first rest]; [reflexivity|].
    eexists. split; [reflexivity|].
    cbn [type_statistics stat_count stat_mean stat_std stat_min stat_max stat_unit].
    split; [reflexivity|]. split.
    { intros r0 Hr0. apply np_min_max_bounds. now apply in_map. }
    split; [apply sqrt_pos | reflexivity].
Qed.

(** X17: the quality and coverage sections of the report.  For a sensor
    type present, the share of high-quality readings is a percentage
    between 0 and 100, the minimum quality is at most the quality score of
    every reading of the type, the coverage starts no later than it ends,
    its duration is not negative, and a type with a single reading has a
    reading frequency of 0. *)
Theorem fusion_report_quality_coverage (self : SensorDataFusion) (now : Z)
  (readings : list SensorReading) (t : string) (first : SensorReading)
  (rest : list SensorReading) :
  filter (has_type t) readings = first :: rest ->
  exists report q c,
    generate_fusion_report self now readings = Ok report /\
    Dict.get t (quality_summary report) = Some q /\
    Dict.get t (temporal_coverage report) = Some c /\
    0 <= high_quality_percentage q <= 100 /\
    (forall r, In r (first :: rest) -> min_quality q <= quality_score r) /\
    (start_time c <= end_time c)%Z /\
    0 <= duration_hours c /\
    (rest = [] -> reading_frequency_minutes c = 0).
Proof.
  intros Hgroup.
  destruct readings as [|r rs]; [discriminate|].
  destruct (multi_sensor_fusion_total (r :: rs)) as [fused [Hf _]].
  unfold generate_fusion_report. rewrite Hf. cbn [bind].
  eexists. eexists. eexists. split; [reflexivity|].
  cbn [quality_summary temporal_coverage]. rewrite !per_type_group, Hgroup.
  split; [reflexivity|]. split; [reflexivity|].
  set (l := first :: rest).
  cbn [type_quality type_coverage high_quality_percentage min_quality
         avg_quality start_time end_time duration_hours
         reading_frequency_minutes].
  assert (Hn : 0 < INR (length l)) by (apply lt_0_INR; simpl; lia).
  split; [split|].
  - apply Rmult_le_pos; [|lra]. apply Rmult_le_pos; [apply pos_INR|].
    apply Rlt_le. now apply Rinv_0_lt_compat.
  - set (hq := filter _ (map quality_score l)).
    assert (Hle : INR (length hq) <= INR (length l)).
    { apply le_INR. unfold hq.
      rewrite <- (length_map quality_score l). apply filter_length_le. }
    apply Rmult_le_reg_r with (INR (length l) / 100); [lra|].
    replace (INR (length hq) / INR (length l) * 100 * (INR (length l) / 100))
      with (INR (length hq)) by (field; lra).
    lra.
  - split.
    { intros r0 Hr0.
      apply (@np_min_max_bounds (map quality_score l) (quality_score r0)).
      now apply in_map. }
    split; [apply min_time_le_max_time|]. split.
    { pose proof (min_time_le_max_time (map timestamp l)) as Hspan.
      unfold total_seconds. apply IZR_le in Hspan.
      rewrite minus_IZR.
      apply Rmult_le_pos; [|lra]. apply Rmult_le_pos; lra. }
    intros ->. reflexivity.
Qed.

Lemma fusion_report_quality_coverage_witness :
  exists report q c,
    generate_fusion_report (SensorDataFusion_init 1) 0 median_sample = Ok report /\
    Dict.get "temperature" (quality_summary report) = Some q /\
    Dict.get "temperature" (temporal_coverage report) = Some c /\
    0 <= high_quality_percentage q <= 100 /\
    (forall r, In r median_sample -> min_quality q <= quality_score r) /\
    (start_time c <= end_time c)%Z /\
    0 <= duration_hours c /\
    (tl median_sample = [] -> reading_frequency_minutes c = 0).
Proof.
  apply (@fusion_report_quality_coverage (SensorDataFusion_init 1) 0
           median_sample "temperature" (sample_reading "temperature" 1 1)
           (tl median_sample)).
  reflexivity.
Defined.

(** ** Calibration in general *)

Lemma quality_ok_calibrate (self : SensorDataFusion) (r : SensorReading) :
  quality_ok (calibrate_reading self r) = quality_ok r.
Proof.
  unfold calibrate_reading.
  now destruct (Dict.get (sensor_type r) (calibration_factors self)).
Qed.

Lemma filter_map_commute {A : Type} (p : A -> bool) (f : A -> A) (l : list A) :
  (forall x, p (f x) = p x) -> filter p (map f l) = map f (filter p l).
Proof.
  intros H. induction l as [|x l IH]; simpl; [reflexivity|].
  rewrite H. destruct (p x); simpl; now rewrite IH.
Qed.

(** X18: calibration leaves quality scores and sensor types as they are, so
    the quality filter of cleaning and the selection of a sensor type
    commute with it: filtering the calibrated readings gives the
    calibration of the filtered readings. *)
Theorem apply_calibration_commutes_with_filters (self : SensorDataFusion)
  (readings : list SensorReading) (t : string) :
  filter quality_ok (apply_calibration self readings) =
  apply_calibration self (filter quality_ok readings) /\
  filter (has_type t) (apply_calibration self readings) =
  apply_calibration self (filter (has_type t) readings).
Proof.
  unfold apply_calibration. split; apply filter_map_commute; intros r.
  - apply quality_ok_calibrate.
  - unfold has_type, calibrate_reading.
    now destruct (Dict.get (sensor_type r) (calibration_factors self)).
Qed.

(** X19: calibration does not look at the ['calibrated'] flag: calibrating
    readings that are calibrated already applies the correction a second
    time, giving [slope * (slope * value + offset) + offset] for a type
    with registered factors. *)
Theorem apply_calibration_twice (self : SensorDataFusion)
  (readings : list SensorReading) :
  map value (apply_calibration self (apply_calibration self readings)) =
  map (fun r =>
         match Dict.get (sensor_type r) (calibration_factors self) with
         | Some factors =>
             let slope := Dict.get_default "slope" 1 factors in
             let offset := Dict.get_default "offset" 0 factors in
             slope * (slope * value r + offset) + offset
         | None => value r
         end) readings.
Proof.
  unfold apply_calibration. rewrite !map_map. apply map_ext. intros r.
  unfold calibrate_reading at 2.
  destruct (Dict.get (sensor_type r) (calibration_factors self)) as [factors|] eqn:E.
  - unfold calibrate_reading. cbn [sensor_type calibrated]. rewrite E. reflexivity.
  - unfold calibrate_reading. now rewrite E.
Qed.

(** X20: the loop on objects computes what the loop on values computes.
    Run on the addresses of the readings [values], [apply_calibration]
    returns addresses of the readings [apply_calibration self values]; it
    allocates one object per reading whose type has registered factors, and
    the output address of any other reading is its input address (the same
    object is in both lists). *)
Theorem apply_calibration_heap_refines (self : SensorDataFusion) (h : heap)
  (readings : list ref) (values : list SensorReading) :
  Forall2 (fun a r => deref h a = Some r) readings values ->
  exists h' out,
    apply_calibration_heap self h readings = Some (h', out) /\
    Forall2 (fun a r => deref h' a = Some r) out (apply_calibration self values) /\
    length h' =
    (length h
     + length (filter (fun r => Dict.mem (sensor_type r) (calibration_factors self))
                 values))%nat /\
    forall i a r,
      nth_error readings i = Some a -> nth_error values i = Some r ->
      Dict.get (sensor_type r) (calibration_factors self) = None ->
      nth_error out i = Some a.
Proof.
  intros Hrefs. revert h readings Hrefs.
  induction values as [|r values IH]; intros h readings Hrefs;
    inversion Hrefs as [|a ? rest ? Ha Hrest]; subst.
  - exists h, []. split; [reflexivity|]. split; [constructor|].
    split; [simpl; lia|]. intros [|i] ? ? H; discriminate H.
  - cbn [apply_calibration_heap]. rewrite Ha.
    destruct (Dict.get (sensor_type r) (calibration_factors self))
      as [factors|] eqn:Hf.
    + cbn [alloc].
      destruct (IH (h ++ [calibrated factors r]) rest) as (h' & out & Hrun & Hout & Hlen & Halias).
      { eapply Forall2_impl; [|exact Hrest]. intros b o Hb. now apply deref_app. }
      rewrite Hrun. exists h', (length h :: out).
      split; [reflexivity|]. split; [|split].
      * cbn [apply_calibration map]. constructor; [|exact Hout].
        unfold calibrate_reading. rewrite Hf.
        assert (Hprefix : exists news, h' = (h ++ [calibrated factors r]) ++ news).
        { destruct (@apply_calibration_heap_spec self rest (h ++ [calibrated factors r]))
            as (news & out0 & Hrun0 & _).
          - clear - Hrest. induction Hrest as [|b o l l' Hb _ IHr]; constructor; auto.
            apply deref_app with (news := [calibrated factors r]) in Hb.
            apply nth_error_Some. unfold deref in Hb. congruence.
          - rewrite Hrun in Hrun0. injection Hrun0 as -> _. now exists news. }
        destruct Hprefix as [news ->].
        apply deref_app. unfold deref.
        rewrite nth_error_app2, Nat.sub_diag; auto.
      * rewrite Hlen, length_app. cbn [filter length]. unfold Dict.mem at 2.
        rewrite Hf. cbn [length]. lia.
      * intros [|i] b o Hb Ho Hnone; cbn [nth_error] in *.
        -- injection Ho as <-. congruence.
        -- now apply (Halias i b o).
    + destruct (IH h rest Hrest) as (h' & out & Hrun & Hout & Hlen & Halias).
      rewrite Hrun. exists h', (a :: out).
      split; [reflexivity|]. split; [|split].
      * cbn [apply_calibration map]. constructor; [|exact Hout].
        unfold calibrate_reading. rewrite Hf.
        destruct (@apply_calibration_heap_spec self rest h) as (news & out0 & Hrun0 & _).
        { clear - Hrest. induction Hrest as [|b o l l' Hb _ IHr]; constructor; auto.
          apply nth_error_Some. unfold deref in Hb. congruence. }
        rewrite Hrun in Hrun0. injection Hrun0 as -> _. now apply deref_app.
      * rewrite Hlen. cbn [filter]. unfold Dict.mem at 2. now rewrite Hf.
      * intros [|i] b o Hb Ho Hnone; cbn [nth_error] in *.
        -- congruence.
        -- now apply (Halias i b o).
Qed.

Lemma apply_calibration_heap_refines_witness :
  exists h' out,
    apply_calibration_heap linear_engine
      [low_quality_reading; out_of_range_reading] [0%nat; 1%nat] = Some (h', out) /\
    Forall2 (fun a r => deref h' a = Some r) out
      (apply_calibration linear_engine [low_quality_reading; out_of_range_reading]) /\
    length h' =
    (2 + length (filter (fun r => Dict.mem (sensor_type r)
                                    (calibration_factors linear_engine))
                   [low_quality_reading; out_of_range_reading]))%nat /\
    forall i a r,
      nth_error [0%nat; 1%nat] i = Some a ->
      nth_error [low_quality_reading; out_of_range_reading] i = Some r ->
      Dict.get (sensor_type r) (calibration_factors linear_engine) = None ->
      nth_error out i = Some a.
Proof.
  apply (@apply_calibration_heap_refines linear_engine
           [low_quality_reading; out_of_range_reading] [0%nat; 1%nat]
           [low_quality_reading; out_of_range_reading]).
  repeat constructor.
Defined.
